(** * Tokdash: normalisation, pricing and aggregation pipeline

    A shallow embedding of the Python sources of Tokdash
    ([model_normalization.py], [pricing.py], [compute.py],
    [sources/coding_tools.py], [sources/openclaw.py]) and the properties
    of the specification that are checked against it.

    Conventions of the embedding.
    - Python [int] is [Z]; Python [float] is IEEE-754 binary64, taken from
      the Standard Library's executable specification [SpecFloat]
      (round to nearest, ties to even).
    - Python [str] is [string]; characters are bytes, so the character
      classes of [re] and of [str.strip]/[str.lower] are the ASCII ones.
    - JSON documents decoded by [json.loads] are values of [jval]; a JSON
      object is an association list read with [dict_get].
    - Exceptions are explicit: fallible code returns [result].
    - Insertion-ordered [dict]s whose iteration order reaches the output
      are association lists ([odict]); dictionaries that are only looked
      up, or iterated in sorted key order, are [gmap]s. *)

From Stdlib Require Import ZArith String Ascii List Bool Lia Permutation.
From Stdlib Require Import Floats.SpecFloat.
From stdpp Require Import gmap strings list sorting.

Local Open Scope Z_scope.
Local Set Warnings "-register-all".

(* ================================================================== *)
(** * Python values *)
(* ================================================================== *)

(** ** Exceptions *)

Inductive pyerr :=
| ValueError
| TypeError
| OverflowError
| AttributeError
| ZeroDivisionError
| Unmodelled.   (* the input leaves the domain of the embedding *)

Inductive result (A : Type) :=
| Ok (a : A)
| Raise (e : pyerr).
Arguments Ok {A} a.
Arguments Raise {A} e.

Definition rbind {A B} (m : result A) (k : A -> result B) : result B :=
  match m with
  | Ok a => k a
  | Raise e => Raise e
  end.

Notation "'do' x <- m ; k" := (rbind m (fun x => k))
  (at level 10, x name, m at level 100, k at level 200).

Definition is_ok {A} (m : result A) : bool :=
  match m with Ok _ => true | Raise _ => false end.

(** ** Floats: IEEE-754 binary64 *)

Definition float := spec_float.
Definition prec : Z := 53.
Definition emax : Z := 1024.

Definition fadd : float -> float -> float := SFadd prec emax.
Definition fmul : float -> float -> float := SFmul prec emax.
Definition fdiv : float -> float -> float := SFdiv prec emax.
Definition flt : float -> float -> bool := SFltb.
Definition fzero : float := S754_zero false.

(** [float(n)] for an [int]: correctly rounded, [OverflowError] when the
    value does not fit. *)
Definition float_of_int (z : Z) : result float :=
  match binary_normalize prec emax z 0 false with
  | S754_infinity _ => Raise OverflowError
  | f => Ok f
  end.

(** Float literals of the sources. *)
Definition f0_1 : float := Eval vm_compute in
  fdiv (binary_normalize prec emax 1 0 false) (binary_normalize prec emax 10 0 false).
Definition f1e6 : float := Eval vm_compute in binary_normalize prec emax 1000000 0 false.
Definition f1e11 : float := Eval vm_compute in binary_normalize prec emax 100000000000 0 false.
Definition f1000 : float := Eval vm_compute in binary_normalize prec emax 1000 0 false.

(** [a / b] on two [int]s: the correctly rounded quotient. *)
Definition int_truediv (a b : Z) : result float :=
  match a, b with
  | _, Z0 => Raise ZeroDivisionError
  | Z0, _ => Ok (S754_zero (b <? 0))
  | _, _ =>
      let '(q, e, l) := SFdiv_core_binary prec emax (Z.abs a) 0 (Z.abs b) 0 in
      match binary_round_aux prec emax (xorb (a <? 0) (b <? 0)) q e l with
      | S754_infinity _ => Raise OverflowError
      | f => Ok f
      end
  end.

(** [int(x)] for a [float]: truncation towards zero. *)
Definition int_of_float (f : float) : result Z :=
  match f with
  | S754_zero _ => Ok 0
  | S754_nan => Raise ValueError
  | S754_infinity _ => Raise OverflowError
  | S754_finite s m e =>
      let a := match e with
               | Zneg p => Z.shiftr (Zpos m) (Zpos p)
               | _ => Z.shiftl (Zpos m) e
               end in
      Ok (if s then - a else a)
  end.

(** [round(x, ndigits)] for [ndigits >= 0]: the decimal with [ndigits]
    places nearest to the exact value of [x] (ties to even), converted back
    with correct rounding. *)
Definition round_half_even_div (n d : Z) : Z :=
  let q := n / d in
  match 2 * (n mod d) ?= d with
  | Lt => q
  | Gt => q + 1
  | Eq => if Z.even q then q else q + 1
  end.

Definition py_round (x : float) (ndigits : Z) : float :=
  match x with
  | S754_finite s m e =>
      let scaled := match e with
                    | Zneg p => round_half_even_div (Zpos m * 10 ^ ndigits) (2 ^ Zpos p)
                    | _ => Zpos m * 10 ^ ndigits * 2 ^ e
                    end in
      match scaled with
      | Z0 => S754_zero s
      | _ =>
          let '(q, e', l) := SFdiv_core_binary prec emax scaled 0 (10 ^ ndigits) 0 in
          binary_round_aux prec emax s q e' l
      end
  | _ => x
  end.

(** ** Characters and strings *)

Definition in_range_N (lo hi : N) (c : ascii) : bool :=
  let n := N_of_ascii c in ((lo <=? n) && (n <=? hi))%N.

Definition is_space (c : ascii) : bool :=
  in_range_N 9 13 c || in_range_N 28 32 c.
Definition is_digit (c : ascii) : bool := in_range_N 48 57 c.
Definition is_upper (c : ascii) : bool := in_range_N 65 90 c.
Definition is_lower (c : ascii) : bool := in_range_N 97 122 c.
Definition is_word (c : ascii) : bool :=
  is_digit c || is_upper c || is_lower c || Ascii.eqb c "_".
Definition is_hyphen (c : ascii) : bool := Ascii.eqb c "-".
Definition is_slash (c : ascii) : bool := Ascii.eqb c "/".

Definition lower_char (c : ascii) : ascii :=
  if is_upper c then ascii_of_N (N_of_ascii c + 32) else c.

Fixpoint map_chars (f : ascii -> ascii) (s : string) : string :=
  match s with
  | EmptyString => EmptyString
  | String c r => String (f c) (map_chars f r)
  end.

Fixpoint all_chars (P : ascii -> bool) (s : string) : bool :=
  match s with
  | EmptyString => true
  | String c r => P c && all_chars P r
  end.

Fixpoint has_char (P : ascii -> bool) (s : string) : bool :=
  match s with
  | EmptyString => false
  | String c r => P c || has_char P r
  end.

Definition is_empty (s : string) : bool :=
  match s with EmptyString => true | _ => false end.

(** [s.lower()] *)
Definition lower (s : string) : string := map_chars lower_char s.

(** [s.replace(a, b)] for single characters *)
Definition replace_char (a b : ascii) (s : string) : string :=
  map_chars (fun c => if Ascii.eqb c a then b else c) s.

Fixpoint lstrip_with (P : ascii -> bool) (s : string) : string :=
  match s with
  | EmptyString => EmptyString
  | String c r => if P c then lstrip_with P r else s
  end.

Fixpoint rstrip_with (P : ascii -> bool) (s : string) : string :=
  match s with
  | EmptyString => EmptyString
  | String c r =>
      match rstrip_with P r with
      | EmptyString => if P c then EmptyString else String c EmptyString
      | r' => String c r'
      end
  end.

(** [s.strip()] and [s.strip("-")] *)
Definition strip_with (P : ascii -> bool) (s : string) : string :=
  rstrip_with P (lstrip_with P s).
Definition strip (s : string) : string := strip_with is_space s.

(** The rest of [s] after the prefix [p], when [s] starts with [p]. *)
Fixpoint drop_prefix (p s : string) : option string :=
  match p with
  | EmptyString => Some s
  | String a p' =>
      match s with
      | String b s' => if Ascii.eqb a b then drop_prefix p' s' else None
      | EmptyString => None
      end
  end.

Definition startswith (p s : string) : bool :=
  match drop_prefix p s with Some _ => true | None => false end.

(** [s.removeprefix(p)], also [re.sub("^p", "", s)] for a literal [p] *)
Definition removeprefix (p s : string) : string :=
  match drop_prefix p s with Some r => r | None => s end.

(** [sub in s] *)
Fixpoint contains (sub s : string) : bool :=
  startswith sub s ||
  match s with
  | EmptyString => false
  | String _ r => contains sub r
  end.

(** [s.split("/")[-1]] *)
Fixpoint last_segment (s : string) : string :=
  match s with
  | EmptyString => EmptyString
  | String c r =>
      if has_char is_slash r then last_segment r
      else if is_slash c then r else s
  end.

(** [re.sub("^(models?|model)<sep>", "", s)], where [sep] is the character
    class that closes the prefix. *)
Definition sub_models_prefix (sep : ascii -> bool) (s : string) : string :=
  match drop_prefix "model" s with
  | Some (String c r) =>
      if Ascii.eqb c "s" then
        match r with
        | String c' r' => if sep c' then r' else s
        | EmptyString => s
        end
      else if sep c then r else s
  | _ => s
  end.

(** [re.sub("[P]+", rep, s)]: every maximal run of characters of the class
    becomes one [rep]. *)
Fixpoint sub_runs_from (P : ascii -> bool) (rep : ascii) (in_run : bool) (s : string) : string :=
  match s with
  | EmptyString => EmptyString
  | String c r =>
      if P c then
        if in_run then sub_runs_from P rep true r
        else String rep (sub_runs_from P rep true r)
      else String c (sub_runs_from P rep false r)
  end.
Definition sub_runs (P : ascii -> bool) (rep : ascii) (s : string) : string :=
  sub_runs_from P rep false s.

(** [re.sub("<pat>$", "", s)] for a pattern that matches no empty string:
    [here t] tells whether the whole of [t] matches [pat].  The search is
    leftmost; [$] matches at the end of the string and also just before a
    final newline, which is then kept. *)
Definition newline : ascii := ascii_of_N 10.

Fixpoint drop_final_newline (t : string) : option string :=
  match t with
  | EmptyString => None
  | String c EmptyString => if Ascii.eqb c newline then Some EmptyString else None
  | String c r => option_map (String c) (drop_final_newline r)
  end.

Definition matches_at_end (here : string -> bool) (t : string) : option string :=
  if here t then Some EmptyString
  else match drop_final_newline t with
       | Some u => if here u then Some (String newline EmptyString) else None
       | None => None
       end.

Fixpoint sub_at_end (here : string -> bool) (s : string) : string :=
  match matches_at_end here s with
  | Some rest => rest
  | None =>
      match s with
      | EmptyString => EmptyString
      | String c r => String c (sub_at_end here r)
      end
  end.

(** [-(latest|stable)] *)
Definition latest_or_stable (t : string) : bool :=
  String.eqb t "-latest" || String.eqb t "-stable".

(** [-thinking] *)
Definition thinking_suffix (t : string) : bool := String.eqb t "-thinking".

(** [-(preview|exp|experimental)(?:-[\w\d]+)?] *)
Definition release_noise (t : string) : bool :=
  existsb
    (fun w =>
       match drop_prefix w t with
       | Some EmptyString => true
       | Some (String c r) => is_hyphen c && negb (is_empty r) && all_chars is_word r
       | None => false
       end)
    ["-preview"%string; "-exp"%string; "-experimental"%string].

(** [-(\d{4}-\d{2}-\d{2}|\d{8})] *)
Definition date_suffix (t : string) : bool :=
  match t with
  | String h r =>
      is_hyphen h &&
      match list_ascii_of_string r with
      | [y1; y2; y3; y4; h1; m1; m2; h2; d1; d2] =>
          forallb is_digit [y1; y2; y3; y4; m1; m2; d1; d2] && is_hyphen h1 && is_hyphen h2
      | [a1; a2; a3; a4; a5; a6; a7; a8] =>
          forallb is_digit [a1; a2; a3; a4; a5; a6; a7; a8]
      | _ => false
      end
  | EmptyString => false
  end.

(** [re.sub("-(\d)-(\d+)", "-\1.\2", s)].  After a match the scan goes on
    at the digits of the second group: they are copied as they are and no
    match can start inside them. *)
Fixpoint version_hyphen_to_dot (s : string) : string :=
  match s with
  | EmptyString => EmptyString
  | String c1 r1 =>
      match r1 with
      | String d (String c2 r3) =>
          match r3 with
          | String e _ =>
              if is_hyphen c1 && is_digit d && is_hyphen c2 && is_digit e
              then String "-" (String d (String "." (version_hyphen_to_dot r3)))
              else String c1 (version_hyphen_to_dot r1)
          | EmptyString => String c1 (version_hyphen_to_dot r1)
          end
      | _ => String c1 (version_hyphen_to_dot r1)
      end
  end.

(** [re.sub("k2(?:p|-)5", "k2.5", s)] *)
Fixpoint sub_k2 (s : string) : string :=
  match s with
  | EmptyString => EmptyString
  | String c1 r1 =>
      match r1 with
      | String c2 (String c3 (String c4 r4)) =>
          if Ascii.eqb c1 "k" && Ascii.eqb c2 "2"
             && (Ascii.eqb c3 "p" || is_hyphen c3) && Ascii.eqb c4 "5"
          then String "k" (String "2" (String "." (String "5" (sub_k2 r4))))
          else String c1 (sub_k2 r1)
      | _ => String c1 (sub_k2 r1)
      end
  end.

Definition str_in (s : string) (l : list string) : bool :=
  existsb (String.eqb s) l.

Fixpoint assoc_get {V} (k : string) (l : list (string * V)) : option V :=
  match l with
  | [] => None
  | (k', v) :: l' => if String.eqb k k' then Some v else assoc_get k l'
  end.

(* ================================================================== *)
(** * model_normalization.py *)
(* ================================================================== *)

Definition alias_map : list (string * string) :=
  [ ("gemini-3-pro-high", "gemini-3-pro");
    ("gemini-3-pro-low", "gemini-3-pro");
    ("gemini-3-pro-preview", "gemini-3-pro");
    ("o3-mini-high", "o3-mini");
    ("o3-mini-low", "o3-mini");
    ("claude-3-5-sonnet", "claude-3.5-sonnet");
    ("claude-3-7-sonnet", "claude-3.7-sonnet");
    ("k2p5", "k2.5");
    ("k2-5", "k2.5") ]%string.

(** The steps of [normalize_model_name] up to and including the choice of
    the last [/]-segment. *)
Definition model_segment (n : string) : string :=
  let n := replace_char "\" "/" n in
  let n := sub_models_prefix (fun c => Ascii.eqb c ":" || is_slash c) n in
  last_segment n.

(** The steps of [normalize_model_name] that follow it. *)
Definition canonical_segment (n : string) : string :=
  let n := removeprefix "antigravity-" n in
  let n := sub_runs (fun c => is_space c || Ascii.eqb c "_") "-" n in
  let n := strip_with is_hyphen (sub_runs is_hyphen "-" n) in
  let n := sub_at_end latest_or_stable n in
  let n := sub_at_end release_noise n in
  let n := sub_at_end date_suffix n in
  let n := sub_at_end thinking_suffix n in
  let n := match assoc_get n alias_map with Some a => a | None => n end in
  let n := version_hyphen_to_dot n in
  let n := match drop_prefix "claude-opus" n with
           | Some r => String.append "opus" r
           | None => n
           end in
  let n := if (startswith "opus" n || startswith "sonnet" n) && negb (startswith "claude-" n)
           then String.append "claude-" n else n in
  let n := sub_k2 n in
  let n := if str_in n ["k2.5"; "kimi2.5"; "kimi-2.5"; "kimi-k2p5"; "kimi-k2-5"]%string
           then "kimi-k2.5"%string else n in
  let n := if startswith "kimi" n
              && (contains "k2.5" n || contains "k2p5" n || contains "k2-5" n || contains "2.5" n)
           then "kimi-k2.5"%string else n in
  if is_empty n then "unknown"%string else n.

Definition normalize_model_name (name : string) : string :=
  let n := lower (strip name) in
  if is_empty n then "unknown"%string
  else canonical_segment (model_segment n).


(** ** [int(s)] for a [str] *)

Definition digit_val (c : ascii) : Z := Z.of_N (N_of_ascii c) - 48.

(** Decimal digits, with single underscores allowed between two digits. *)
Fixpoint parse_digits (acc : Z) (after_digit : bool) (s : string) : option Z :=
  match s with
  | EmptyString => if after_digit then Some acc else None
  | String c r =>
      if is_digit c then parse_digits (10 * acc + digit_val c) true r
      else if Ascii.eqb c "_" && after_digit then parse_digits acc false r
      else None
  end.

(** [int(s)]: surrounding whitespace, an optional sign, decimal digits.
    [None] stands for [ValueError]. *)
Definition int_of_string (s : string) : option Z :=
  match strip s with
  | String c r =>
      if Ascii.eqb c "-" then option_map Z.opp (parse_digits 0 false r)
      else if Ascii.eqb c "+" then parse_digits 0 false r
      else parse_digits 0 false (String c r)
  | EmptyString => None
  end.

(** ** Decoded JSON *)

Inductive jval :=
| JNull
| JBool (b : bool)
| JInt (z : Z)
| JFloat (f : float)
| JStr (s : string)
| JList (l : list jval)
| JDict (d : list (string * jval)).

Definition jdict := list (string * jval).

(** Truth value of a Python object, as [or], [not] and [if] test it. *)
Definition truthy (v : jval) : bool :=
  match v with
  | JNull => false
  | JBool b => b
  | JInt z => negb (z =? 0)
  | JFloat (S754_zero _) => false
  | JFloat _ => true
  | JStr s => negb (is_empty s)
  | JList l => match l with [] => false | _ => true end
  | JDict d => match d with [] => false | _ => true end
  end.

(** [a or b] *)
Definition py_or (a b : jval) : jval := if truthy a then a else b.

(** [d.get(k)] and [d.get(k, dflt)] *)
Definition dict_get (d : jdict) (k : string) : option jval := assoc_get k d.
Definition get_default (d : jdict) (k : string) (dflt : jval) : jval :=
  match dict_get d k with Some v => v | None => dflt end.

Definition truthy_dict (d : jdict) : bool :=
  match d with [] => false | _ => true end.

(** ** Dates and times *)

(** A [datetime]: the reading of its wall clock in microseconds since
    1970-01-01T00:00:00 and, when it is aware, its offset from UTC. *)
Record datetime := { wall_us : Z; utcoffset : option Z }.

Definition is_aware (dt : datetime) : bool :=
  match utcoffset dt with Some _ => true | None => false end.

(** The point in time of a datetime; a naive one is read as UTC. *)
Definition instant (dt : datetime) : Z :=
  match utcoffset dt with
  | Some off => wall_us dt - off
  | None => wall_us dt
  end.

Inductive number :=
| NInt (z : Z)
| NFloat (f : float).

(** ** The Python runtime and the machine

    Library and operating-system functions whose result is not fixed by
    the sources: they are an interface of the embedding. *)
Class PyRuntime := {
  (** [float(s)] for a [str]; [None] is [ValueError] *)
  float_of_str : string -> option float;
  (** [datetime.fromisoformat(s)]; [None] is [ValueError] *)
  fromisoformat : string -> option datetime;
  (** [datetime.fromtimestamp(t, timezone.utc)] *)
  fromtimestamp_utc : number -> result datetime;
  (** [dt.astimezone().strftime("%Y-%m-%d")] for an aware [dt]: the
      calendar date in the local time zone *)
  local_date : datetime -> string
}.

(** ** Conversions of decoded JSON *)

(** [int(v)] *)
Definition py_int (v : jval) : result Z :=
  match v with
  | JNull => Raise TypeError
  | JBool b => Ok (if b then 1 else 0)
  | JInt z => Ok z
  | JFloat f => int_of_float f
  | JStr s => match int_of_string s with Some z => Ok z | None => Raise ValueError end
  | JList _ => Raise TypeError
  | JDict _ => Raise TypeError
  end.

(** [float(v)] *)
Definition py_float `{PyRuntime} (v : jval) : result float :=
  match v with
  | JNull => Raise TypeError
  | JBool b => Ok (if b then S754_finite false 4503599627370496 (-52) else fzero)
  | JInt z => float_of_int z
  | JFloat f => Ok f
  | JStr s => match float_of_str s with Some f => Ok f | None => Raise ValueError end
  | JList _ => Raise TypeError
  | JDict _ => Raise TypeError
  end.

(** [_i] of [coding_tools.BaseParser] and of [openclaw]: [int(v or 0)],
    and 0 when that raises. *)
Definition _i (v : jval) : Z :=
  match py_int (py_or v (JInt 0)) with
  | Ok z => z
  | Raise _ => 0
  end.

(** ** Insertion-ordered dictionaries *)

Definition odict (K V : Type) := list (K * V).

Fixpoint od_get `{EqDecision K} {V} (k : K) (d : odict K V) : option V :=
  match d with
  | [] => None
  | (k', v) :: d' => if decide (k = k') then Some v else od_get k d'
  end.

(** [d[k] = v]: in place for a key of [d], appended for a new one. *)
Fixpoint od_set `{EqDecision K} {V} (k : K) (v : V) (d : odict K V) : odict K V :=
  match d with
  | [] => [(k, v)]
  | (k', v') :: d' =>
      if decide (k = k') then (k, v) :: d' else (k', v') :: od_set k v d'
  end.

(** [d.setdefault(k, dflt)] followed by the update [f] of the object it
    returns. *)
Definition od_update `{EqDecision K} {V} (k : K) (dflt : V) (f : V -> V) (d : odict K V) : odict K V :=
  od_set k (f (match od_get k d with Some v => v | None => dflt end)) d.

Definition od_values {K V} (d : odict K V) : list V := map snd d.
Definition od_keys {K V} (d : odict K V) : list K := map fst d.

(** [sorted(l, key=..., reverse=True)] on float keys: a stable sort in
    descending order.  It compares with [<] only, as [list.sort] does; with
    a NaN among the keys the order of CPython's merge sort is not the one
    of this insertion sort. *)
Fixpoint insert_desc {A} (key : A -> float) (x : A) (l : list A) : list A :=
  match l with
  | [] => [x]
  | y :: l' => if flt (key x) (key y) then y :: insert_desc key x l' else x :: l
  end.
Definition sorted_desc {A} (key : A -> float) (l : list A) : list A :=
  foldr (insert_desc key) [] l.

(* ================================================================== *)
(** * pricing.py *)
(* ================================================================== *)

(** The database after [load]: the price table, the alias table and the
    memo of resolutions. *)
Record PricingDatabase := {
  pricing : gmap string jdict;
  aliases : gmap string string;
  _resolved_cache : gmap string (option jdict)
}.

Definition _normalize_key (s : string) : string :=
  let s := lower (strip s) in
  if is_empty s then EmptyString
  else
    let s := replace_char "\" "/" s in
    let s := sub_models_prefix (fun c => Ascii.eqb c ":" || is_slash c) s in
    let s := last_segment s in
    let s := sub_runs (fun c => is_space c || Ascii.eqb c "_") "-" s in
    strip_with is_hyphen (sub_runs is_hyphen "-" s).

Definition _normalize_alias_key (s : string) : string :=
  let s := lower (strip s) in
  if is_empty s then EmptyString
  else
    let s := replace_char "\" "/" s in
    let s := sub_models_prefix (fun c => Ascii.eqb c ":") s in
    let s := sub_runs (fun c => is_space c || Ascii.eqb c "_") "-" s in
    strip_with is_hyphen (sub_runs is_hyphen "-" s).

Definition _strip_common_suffixes (key : string) : string :=
  let k := sub_at_end latest_or_stable key in
  let k := sub_at_end date_suffix k in
  sub_at_end thinking_suffix k.

Definition _version_hyphen_to_dot (key : string) : string :=
  version_hyphen_to_dot key.

Definition _kimi_aliases (k : string) : list string :=
  if str_in k ["k2.5"; "k2-5"; "k2p5"; "kimi2.5"; "kimi-k2p5"; "kimi-k2-5"]%string
  then ["k2p5"; "kimi-k2.5"]%string
  else if startswith "kimi" k && (contains "k2.5" k || contains "k2p5" k || contains "k2-5" k)
  then ["k2p5"; "kimi-k2.5"]%string
  else [].

(** The local function [consider] of [_resolve_pricing], with the set
    [seen] it updates. *)
Definition consider (pr : gmap string jdict) (seen : gset string) (k : string)
  : option jdict * gset string :=
  if is_empty k then (None, seen)
  else if decide (k ∈ seen) then (None, seen)
  else (pr !! k, {[k]} ∪ seen).

(** [for k in ks: p = consider(k); if p: return p] *)
Fixpoint try_keys (pr : gmap string jdict) (seen : gset string) (ks : list string)
  : option jdict * gset string :=
  match ks with
  | [] => (None, seen)
  | k :: ks' =>
      match consider pr seen k with
      | (Some d, seen') => if truthy_dict d then (Some d, seen') else try_keys pr seen' ks'
      | (None, seen') => try_keys pr seen' ks'
      end
  end.

(** The loop over [alias_variants]. *)
Fixpoint try_aliases (pr : gmap string jdict) (al : gmap string string)
  (seen : gset string) (aks : list string) : option jdict * gset string :=
  match aks with
  | [] => (None, seen)
  | ak :: aks' =>
      if is_empty ak then try_aliases pr al seen aks'
      else
        match al !! ak with
        | None => try_aliases pr al seen aks'
        | Some target =>
            if is_empty target then try_aliases pr al seen aks'
            else
              match consider pr seen target with
              | (Some d, seen') =>
                  if truthy_dict d then (Some d, seen') else try_aliases pr al seen' aks'
              | (None, seen') => try_aliases pr al seen' aks'
              end
        end
  end.

Definition suffix_variants (k : string) : list string :=
  [ k; _strip_common_suffixes k; _version_hyphen_to_dot k;
    _version_hyphen_to_dot (_strip_common_suffixes k) ].

Definition alias_variants (raw base : string) : list string :=
  flat_map (fun ak => if is_empty ak then [] else suffix_variants ak)
    [ raw; base; _normalize_alias_key raw; _normalize_alias_key base;
      _normalize_key raw; _normalize_key base ].

Definition expanded (raw base : string) : list string :=
  flat_map
    (fun k =>
       if is_empty k then []
       else
         suffix_variants k
         ++ (if startswith "antigravity-" k
             then suffix_variants (removeprefix "antigravity-" k) else [])
         ++ _kimi_aliases k
         ++ _kimi_aliases (_strip_common_suffixes k))
    [ _normalize_key raw; _normalize_key base ].

(** The body of [_resolve_pricing] below the cache. *)
Definition resolve (pr : gmap string jdict) (al : gmap string string) (model : string)
  : option jdict :=
  let raw := model in
  let base := if has_char is_slash raw then last_segment raw else raw in
  let base := if is_empty base then raw else base in
  match try_keys pr ∅ [raw; base] with
  | (Some d, _) => Some d
  | (None, seen) =>
      match try_aliases pr al seen (alias_variants raw base) with
      | (Some d, _) => Some d
      | (None, seen) => fst (try_keys pr seen (expanded raw base))
      end
  end.

Definition _resolve_pricing (db : PricingDatabase) (model : string)
  : option jdict * PricingDatabase :=
  match _resolved_cache db !! model with
  | Some cached => (cached, db)
  | None =>
      let p := resolve (pricing db) (aliases db) model in
      (p, {| pricing := pricing db; aliases := aliases db;
             _resolved_cache := <[model := p]> (_resolved_cache db) |})
  end.

Section Pricing.
Context `{PyRuntime}.

(** [float(pricing.get(k, dflt) or 0.0)] *)
Definition rate (p : jdict) (k : string) (dflt : float) : result float :=
  py_float (py_or (get_default p k (JFloat dflt)) (JFloat fzero)).

(** The arithmetic of [get_cost] on a price record. *)
Definition price_cost (p : jdict) (input_tokens output_tokens cache_read cache_write : Z)
  : result float :=
  do input_rate <- rate p "input" fzero;
  do output_rate <- rate p "output" fzero;
  do cache_read_rate <- rate p "cache_read" (fmul input_rate f0_1);
  do cache_write_rate <- rate p "cache_write" input_rate;
  do i <- float_of_int input_tokens;
  do o <- float_of_int output_tokens;
  do cr <- float_of_int cache_read;
  do cw <- float_of_int cache_write;
  Ok (fdiv (fadd (fadd (fadd (fmul i input_rate) (fmul o output_rate))
                       (fmul cr cache_read_rate))
                 (fmul cw cache_write_rate))
           f1e6).

Definition get_cost (db : PricingDatabase) (model : string)
  (input_tokens output_tokens cache_read cache_write : Z)
  : result float * PricingDatabase :=
  match _resolve_pricing db model with
  | (None, db') => (Ok fzero, db')
  | (Some p, db') =>
      if truthy_dict p
      then (price_cost p input_tokens output_tokens cache_read cache_write, db')
      else (Ok fzero, db')
  end.

End Pricing.

(* ================================================================== *)
(** * compute.py: aggregation by app and model *)
(* ================================================================== *)

(** The running sums of an aggregated row. *)
Record counters := {
  tokens : Z;
  tokens_in : Z;
  tokens_out : Z;
  tokens_cache : Z;
  cost : float;
  messages : Z
}.

Definition zero_counters : counters :=
  {| tokens := 0; tokens_in := 0; tokens_out := 0; tokens_cache := 0;
     cost := fzero; messages := 0 |}.

(** The six [+=] of a row. *)
Definition bump (c d : counters) : counters :=
  {| tokens := tokens c + tokens d;
     tokens_in := tokens_in c + tokens_in d;
     tokens_out := tokens_out c + tokens_out d;
     tokens_cache := tokens_cache c + tokens_cache d;
     cost := fadd (cost c) (cost d);
     messages := messages c + messages d |}.

Record model_row := { name : string; m_counts : counters }.
Record global_row := { g_source : string; g_name : string; g_counts : counters }.
Record app_acc := { a_counts : counters; models_dict : odict string model_row }.
Record app_row := { app_counts : counters; models : list model_row }.

Record agg_state := {
  st_db : PricingDatabase;
  st_apps : odict string app_acc;
  st_all : odict (string * string) global_row
}.

Record usage_data := {
  total_cost : float;
  total_tokens : Z;
  total_messages : Z;
  apps : odict string app_row;
  all_models : list global_row
}.

(** [int(entry.get(k, 0) or 0)] *)
Definition entry_int (e : jdict) (k : string) : result Z :=
  py_int (py_or (get_default e k (JInt 0)) (JInt 0)).

(** [entry.get(k, dflt)] for the keys whose values are strings in every
    entry the parsers emit; a value of another type is outside the
    embedding. *)
Definition str_field (e : jdict) (k dflt : string) : result string :=
  match get_default e k (JStr dflt) with
  | JStr s => Ok s
  | _ => Raise Unmodelled
  end.

(** [f"{provider}/{model}" if provider else model] *)
Definition full_name (provider : jval) (model : string) : result string :=
  if truthy provider then
    match provider with
    | JStr p => Ok (String.append p (String "/" model))
    | _ => Raise Unmodelled
    end
  else Ok model.

(** The three rows an entry is added to. *)
Definition add_to_rows (source full_model_name : string) (d : counters)
  (apps : odict string app_acc) (all : odict (string * string) global_row)
  : odict string app_acc * odict (string * string) global_row :=
  ( od_update source
      {| a_counts := zero_counters; models_dict := [] |}
      (fun a =>
         {| a_counts := bump (a_counts a) d;
            models_dict :=
              od_update full_model_name
                {| name := full_model_name; m_counts := zero_counters |}
                (fun m => {| name := name m; m_counts := bump (m_counts m) d |})
                (models_dict a) |})
      apps,
    od_update (source, full_model_name)
      {| g_source := source; g_name := full_model_name; g_counts := zero_counters |}
      (fun g => {| g_source := g_source g; g_name := g_name g;
                   g_counts := bump (g_counts g) d |})
      all ).

Section Aggregation.
Context `{PyRuntime}.

(** The body of the loop of [parse_entries_json]. *)
Definition fold_entry (st : agg_state) (entry : jval) : result agg_state :=
  match entry with
  | JDict entry =>
      do source <- str_field entry "source" "unknown";
      do model <- str_field entry "model" "unknown";
      do full_model_name <- full_name (get_default entry "provider" (JStr "")) model;
      do input_raw <- entry_int entry "input";
      do tokens_out <- entry_int entry "output";
      do cache_read <- entry_int entry "cacheRead";
      do cache_write <- entry_int entry "cacheWrite";
      let tokens_in := input_raw + cache_write in
      let tokens_cache := cache_read in
      let total_tokens := tokens_in + tokens_out + tokens_cache in
      if total_tokens =? 0 then Ok st
      else
        let '(c, db) :=
          get_cost (st_db st) full_model_name input_raw tokens_out cache_read cache_write in
        do cost <- c;
        do messages <- py_int (py_or (get_default entry "messageCount" (JInt 0)) (JInt 1));
        let d := {| tokens := total_tokens; tokens_in := tokens_in;
                    tokens_out := tokens_out; tokens_cache := tokens_cache;
                    cost := cost; messages := messages |} in
        let '(apps, all) := add_to_rows source full_model_name d (st_apps st) (st_all st) in
        Ok {| st_db := db; st_apps := apps; st_all := all |}
  | _ => Raise AttributeError
  end.

Fixpoint fold_entries (st : agg_state) (entries : list jval) : result agg_state :=
  match entries with
  | [] => Ok st
  | e :: entries' => do st' <- fold_entry st e; fold_entries st' entries'
  end.

(** What [for x in v] goes through. *)
Definition iter_items (v : jval) : result (list jval) :=
  match v with
  | JList l => Ok l
  | JDict d => Ok (map (fun kv => JStr (fst kv)) d)
  | JStr s => Ok (map (fun c => JStr (String c EmptyString)) (list_ascii_of_string s))
  | _ => Raise TypeError
  end.

(** [sum] of floats, as repeated [+] from the left (CPython 3.12 and later
    compensate the rounding errors of this sum; no property below depends
    on [total_cost]). *)
Definition fsum (l : list float) : float := fold_left fadd l fzero.
Definition zsum (l : list Z) : Z := fold_left Z.add l 0.

(** The rows and the totals built after the loop. *)
Definition finish (st : agg_state) : usage_data :=
  let all_models := sorted_desc (fun g => cost (g_counts g)) (od_values (st_all st)) in
  {| total_cost := fsum (map (fun g => cost (g_counts g)) all_models);
     total_tokens := zsum (map (fun g => tokens (g_counts g)) all_models);
     total_messages := zsum (map (fun g => messages (g_counts g)) all_models);
     apps := map (fun '(k, a) =>
                    (k, {| app_counts := a_counts a;
                           models := sorted_desc (fun m => cost (m_counts m))
                                       (od_values (models_dict a)) |}))
                 (st_apps st);
     all_models := all_models |}.

(** [parse_entries_json]; [pr] and [al] are the tables that
    [PricingDatabase()] loads. *)
Definition parse_entries_json (pr : gmap string jdict) (al : gmap string string)
  (data : jdict) : result usage_data :=
  do entries <- iter_items (get_default data "entries" (JList []));
  do st <- fold_entries
             {| st_db := {| pricing := pr; aliases := al; _resolved_cache := ∅ |};
                st_apps := []; st_all := [] |}
             entries;
  Ok (finish st).

End Aggregation.

(* ================================================================== *)
(** * compute.py: daily contributions *)
(* ================================================================== *)

Record token_breakdown := {
  input : Z;
  output : Z;
  cacheRead : Z;
  cacheWrite : Z;
  reasoning : Z
}.

Record day_totals := { day_tokens : Z; day_cost : float; day_messages : Z }.

(** One element of [sources]; [source], [modelId] and [providerId] hold
    the values of the entry as they are. *)
Record day_source := {
  src_source : jval;
  src_modelId : jval;
  src_providerId : jval;
  src_tokens : token_breakdown;
  src_cost : float;
  src_messages : Z
}.

Record DayContribution := {
  date : string;
  totals : day_totals;
  intensity : Z;
  tokenBreakdown : token_breakdown;
  sources : list day_source
}.

(** [sorted] on strings: the order of the code points. *)
Definition sorted_strings (l : list string) : list string := merge_sort String.le l.

(** [[d[k] for k in sorted(d.keys())]] *)
Definition values_by_key {V} (d : gmap string V) : list V :=
  omap (fun k => d !! k) (sorted_strings (elements (dom d))).

Definition empty_day (date : string) : DayContribution :=
  {| date := date;
     totals := {| day_tokens := 0; day_cost := fzero; day_messages := 0 |};
     intensity := 0;
     tokenBreakdown := {| input := 0; output := 0; cacheRead := 0; cacheWrite := 0;
                          reasoning := 0 |};
     sources := [] |}.

Section Contributions.
Context `{PyRuntime}.

(** The body of the loop of [_contributions_from_entries]. *)
Definition contribution_step (by_date : gmap string DayContribution) (e : jval)
  : result (gmap string DayContribution) :=
  match e with
  | JDict e =>
      do ts_ms <- py_int (py_or (get_default e "timestamp" (JInt 0)) (JInt 0));
      if ts_ms <=? 0 then Ok by_date
      else
        do secs <- int_truediv ts_ms 1000;
        do dt <- fromtimestamp_utc (NFloat secs);
        let date_key := local_date dt in
        let day := match by_date !! date_key with
                   | Some d => d
                   | None => empty_day date_key
                   end in
        do input_raw <- entry_int e "input";
        do output_t <- entry_int e "output";
        do cache_r <- entry_int e "cacheRead";
        do cache_w <- entry_int e "cacheWrite";
        do reasoning_t <- entry_int e "reasoning";
        do cost <- py_float (py_or (get_default e "cost" (JFloat fzero)) (JFloat fzero));
        let input_t := input_raw + cache_w in
        let total := input_t + output_t + cache_r + reasoning_t in
        let tb := tokenBreakdown day in
        Ok (<[ date_key :=
               {| date := date day;
                  totals := {| day_tokens := day_tokens (totals day) + total;
                               day_cost := fadd (day_cost (totals day)) cost;
                               day_messages := day_messages (totals day) + 1 |};
                  intensity := intensity day;
                  tokenBreakdown :=
                    {| input := input tb + input_t;
                       output := output tb + output_t;
                       cacheRead := cacheRead tb + cache_r;
                       cacheWrite := cacheWrite tb + 0;
                       reasoning := reasoning tb + reasoning_t |};
                  sources :=
                    sources day ++
                    [ {| src_source := get_default e "source" (JStr "unknown");
                         src_modelId := get_default e "model" (JStr "unknown");
                         src_providerId :=
                           py_or (get_default e "provider" (JStr "")) (JStr "unknown");
                         src_tokens := {| input := input_t; output := output_t;
                                          cacheRead := cache_r; cacheWrite := 0;
                                          reasoning := reasoning_t |};
                         src_cost := cost;
                         src_messages := 1 |} ] |} ]> by_date)
  | _ => Raise AttributeError
  end.

Fixpoint contribution_loop (by_date : gmap string DayContribution) (entries : list jval)
  : result (gmap string DayContribution) :=
  match entries with
  | [] => Ok by_date
  | e :: entries' => do m <- contribution_step by_date e; contribution_loop m entries'
  end.

Definition _contributions_from_entries (entries : list jval) : result (list DayContribution) :=
  do by_date <- contribution_loop ∅ entries;
  Ok (values_by_key by_date).

End Contributions.

(* ================================================================== *)
(** * compute.py: the calendar merge of [compute_stats] *)
(* ================================================================== *)

(** [{c.get("date"): c for c in contributions}] *)
Definition day_map (l : list DayContribution) : gmap string DayContribution :=
  fold_left (fun m c => <[ date c := c ]> m) l ∅.

(** The record appended for a date of both series. *)
Definition merged_day (date : string) (ocl_day c_day : DayContribution) : DayContribution :=
  let o_tb := tokenBreakdown ocl_day in
  let c_tb := tokenBreakdown c_day in
  {| date := date;
     totals :=
       {| day_tokens := day_tokens (totals ocl_day) + day_tokens (totals c_day);
          day_cost := fadd (day_cost (totals ocl_day)) (day_cost (totals c_day));
          day_messages := day_messages (totals ocl_day) + day_messages (totals c_day) |};
     intensity := Z.max (intensity ocl_day) (intensity c_day);
     tokenBreakdown :=
       {| input := input o_tb + input c_tb;
          output := output o_tb + output c_tb;
          cacheRead := cacheRead o_tb + cacheRead c_tb;
          cacheWrite := cacheWrite o_tb + cacheWrite c_tb;
          reasoning := reasoning o_tb + reasoning c_tb |};
     sources := sources ocl_day ++ sources c_day |}.

(** What the loop over [all_dates] appends for one date. *)
Definition merge_at (ocl_map coding_map : gmap string DayContribution) (date : string)
  : option DayContribution :=
  match ocl_map !! date, coding_map !! date with
  | Some ocl_day, Some c_day => Some (merged_day date ocl_day c_day)
  | Some ocl_day, None => Some ocl_day
  | None, Some c_day => Some c_day
  | None, None => None
  end.

(** The list [merged] of [compute_stats]. *)
Definition merge_contributions (ocl coding : list DayContribution) : list DayContribution :=
  let ocl_map := day_map ocl in
  let coding_map := day_map coding in
  let all_dates := sorted_strings (elements (dom ocl_map ∪ dom coding_map)) in
  omap (merge_at ocl_map coding_map) all_dates.

(** [[s for s in day["sources"] if s.get("source", "").lower() != "openclaw"]] *)
Fixpoint without_openclaw (l : list day_source) : result (list day_source) :=
  match l with
  | [] => Ok []
  | s :: l' =>
      match src_source s with
      | JStr src =>
          do r <- without_openclaw l';
          Ok (if String.eqb (lower src) "openclaw" then r else s :: r)
      | _ => Raise AttributeError
      end
  end.

(* ================================================================== *)
(** * compute.py: periods *)
(* ================================================================== *)

(** ** [datetime.date] *)

Record pydate := { year : Z; month : Z; day : Z }.

Definition _is_leap (y : Z) : bool :=
  (y mod 4 =? 0) && (negb (y mod 100 =? 0) || (y mod 400 =? 0)).


Definition _DAYS_IN_MONTH (m : Z) : Z :=
  nth (Z.to_nat m) [-1; 31; 28; 31; 30; 31; 30; 31; 31; 30; 31; 30; 31] 0.
Definition _DAYS_BEFORE_MONTH (m : Z) : Z :=
  nth (Z.to_nat m) [-1; 0; 31; 59; 90; 120; 151; 181; 212; 243; 273; 304; 334] 0.

Definition _days_in_month (y m : Z) : Z :=
  if (m =? 2) && _is_leap y then 29 else _DAYS_IN_MONTH m.



Definition _DI400Y : Z := 146097.
Definition _DI100Y : Z := 36524.
Definition _DI4Y : Z := 1461.

Definition _ord2ymd (n : Z) : pydate :=
  let n := n - 1 in
  let n400 := n / _DI400Y in
  let n := n mod _DI400Y in
  let y := n400 * 400 + 1 in
  let n100 := n / _DI100Y in
  let n := n mod _DI100Y in
  let n4 := n / _DI4Y in
  let n := n mod _DI4Y in
  let n1 := n / 365 in
  let n := n mod 365 in
  let y := y + n100 * 100 + n4 * 4 + n1 in
  if (n1 =? 4) || (n100 =? 4) then {| year := y - 1; month := 12; day := 31 |}
  else
    let leapyear := (n1 =? 3) && (negb (n4 =? 24) || (n100 =? 3)) in
    let m := Z.shiftr (n + 50) 5 in
    let preceding := _DAYS_BEFORE_MONTH m + (if (2 <? m) && leapyear then 1 else 0) in
    let '(m, preceding) :=
      if n <? preceding
      then (m - 1,
            preceding - (_DAYS_IN_MONTH (m - 1) + (if (m - 1 =? 2) && leapyear then 1 else 0)))
      else (m, preceding) in
    {| year := y; month := m; day := n - preceding + 1 |}.


(** Decimal digits of a natural number, at least [width] of them. *)
Fixpoint digits_of (width : nat) (n : Z) : string :=
  match width with
  | O => EmptyString
  | S w => String.append (digits_of w (n / 10))
             (String (ascii_of_N (Z.to_N (48 + n mod 10))) EmptyString)
  end.

(** [d.strftime("%Y-%m-%d")], for the years of four digits. *)
Definition strftime_ymd (d : pydate) : string :=
  String.append (digits_of 4 (year d))
    (String "-" (String.append (digits_of 2 (month d))
       (String "-" (digits_of 2 (day d))))).

(** ** Periods *)





(* ================================================================== *)
(** * sources/coding_tools.py: the range test of the parsers *)
(* ================================================================== *)







(* ================================================================== *)
(** * sources/openclaw.py: the session log aggregator *)
(* ================================================================== *)

Module openclaw.

(** A row of [model_stats]. *)
Record model_stats := {
  ms_tokens_in : Z;
  ms_tokens_out : Z;
  ms_tokens_cache : Z;
  ms_cost : float;
  ms_messages : Z
}.

(** The counters of a day of [daily_contribs] and of each of its
    [sources]: the keys [tokens_in], [tokens_out], [tokens_cacheRead],
    [tokens_total], [cost] and [messages]. *)
Record day_counters := {
  dc_tokens_in : Z;
  dc_tokens_out : Z;
  dc_tokens_cacheRead : Z;
  dc_tokens_total : Z;
  dc_cost : float;
  dc_messages : Z
}.

Record day_acc := { dc_day : day_counters; dc_sources : odict string day_counters }.

(** A session file as [parse_session_file] reads it, with the time of its
    last modification ([None] when [os.path.getmtime] raises). *)
Record session_file := { mtime : option datetime; session_entries : list jval }.

Record loop_state := {
  ls_db : PricingDatabase;
  ls_model_stats : odict string model_stats;
  ls_daily : gmap string day_acc;
  ls_total_messages : Z
}.

Record session_usage := {
  total_tokens : Z;
  total_cost : float;
  total_messages : Z;
  models : odict string counters;
  contributions : list DayContribution
}.

Definition zero_model_stats : model_stats :=
  {| ms_tokens_in := 0; ms_tokens_out := 0; ms_tokens_cache := 0;
     ms_cost := fzero; ms_messages := 0 |}.

Definition zero_day_counters : day_counters :=
  {| dc_tokens_in := 0; dc_tokens_out := 0; dc_tokens_cacheRead := 0;
     dc_tokens_total := 0; dc_cost := fzero; dc_messages := 0 |}.

Definition bump_day (c : day_counters) (t_in t_out t_cache t_total : Z) (cost : float)
  : day_counters :=
  {| dc_tokens_in := dc_tokens_in c + t_in;
     dc_tokens_out := dc_tokens_out c + t_out;
     dc_tokens_cacheRead := dc_tokens_cacheRead c + t_cache;
     dc_tokens_total := dc_tokens_total c + t_total;
     dc_cost := fadd (dc_cost c) cost;
     dc_messages := dc_messages c + 1 |}.

(** [ts.replace("Z", "+00:00")] *)
Fixpoint replace_Z (s : string) : string :=
  match s with
  | EmptyString => EmptyString
  | String c r =>
      if Ascii.eqb c "Z" then String.append "+00:00" (replace_Z r)
      else String c (replace_Z r)
  end.

(** [x or 0.0] for a float *)
Definition or_zero (x : float) : float :=
  match x with S754_zero _ => fzero | _ => x end.

(** [model.split("/")[0] if "/" in model else "unknown"] *)
Fixpoint first_segment (s : string) : string :=
  match s with
  | EmptyString => EmptyString
  | String c r => if is_slash c then EmptyString else String c (first_segment r)
  end.
Definition provider_of (model : string) : string :=
  if has_char is_slash model then first_segment model else "unknown"%string.

(** [a < b] and [a > b] where [a] is aware: [TypeError] for a naive [b]. *)
Definition aware_lt (a b : datetime) : result bool :=
  if is_aware b then Ok (instant a <? instant b) else Raise TypeError.
Definition aware_gt (a b : datetime) : result bool :=
  if is_aware b then Ok (instant b <? instant a) else Raise TypeError.

Section SessionUsage.
Context `{PyRuntime}.

Definition to_option {A} (r : result A) : option A :=
  match r with Ok a => Some a | Raise _ => None end.

Definition _parse_message_datetime (ts : option jval) : option datetime :=
  match ts with
  | None => None
  | Some ts =>
      if negb (truthy ts) then None
      else
        match ts with
        | JBool b => to_option (fromtimestamp_utc (NInt (if b then 1 else 0)))
        | JInt z =>
            if 100000000000 <? z
            then to_option (do q <- int_truediv z 1000; fromtimestamp_utc (NFloat q))
            else to_option (fromtimestamp_utc (NInt z))
        | JFloat f =>
            if flt f1e11 f
            then to_option (fromtimestamp_utc (NFloat (fdiv f f1000)))
            else to_option (fromtimestamp_utc (NFloat f))
        | JStr s => fromisoformat (replace_Z s)
        | _ => None
        end
  end.

Definition _usage_cost_from_payload (usage : jdict) : result float :=
  let cost_data :=
    py_or (py_or (get_default usage "cost" (JFloat fzero))
                 (get_default usage "totalCost" (JFloat fzero)))
          (JFloat fzero) in
  match cost_data with
  | JDict d =>
      let cost := py_or (py_or (get_default d "total" (JFloat fzero))
                               (get_default d "value" (JFloat fzero)))
                        (JFloat fzero) in
      py_float (py_or cost (JFloat fzero))
  | JBool _ | JInt _ | JFloat _ => py_float cost_data
  | _ => Ok fzero
  end.

(** [f"{provider}/{model_id}" if provider not in (None, "", "unknown") else
    str(model_id)]; provider and model are strings in the session logs. *)
Definition message_model (message : jdict) : result string :=
  let provider :=
    py_or (match dict_get message "provider" with Some v => v | None => JNull end)
          (JStr "unknown") in
  let model_id := get_default message "model" (JStr "unknown") in
  match provider, model_id with
  | JStr p, JStr m =>
      if String.eqb p "unknown" then Ok m else Ok (String.append p (String "/" m))
  | _, _ => Raise Unmodelled
  end.

(** [_i(usage.get(a, 0) or usage.get(b, 0) or 0)] *)
Definition usage_int (usage : jdict) (a b : string) : Z :=
  _i (py_or (py_or (get_default usage a (JInt 0)) (get_default usage b (JInt 0))) (JInt 0)).

(** The part of the loop body that follows the test of [usage]. *)
Definition add_usage (st : loop_state) (msg_date : string) (message usage : jdict)
  : result loop_state :=
  do model <- message_model message;
  let tokens_input_raw := usage_int usage "input" "inputTokens" in
  let tokens_cache_write := usage_int usage "cacheWrite" "cacheWriteTokens" in
  let tokens_in := tokens_input_raw + tokens_cache_write in
  let tokens_out := usage_int usage "output" "outputTokens" in
  let tokens_cache_read := usage_int usage "cacheRead" "cacheReadTokens" in
  let tokens_cache := tokens_cache_read in
  let tokens_total := tokens_in + tokens_out + tokens_cache in
  let '(c, db) := get_cost (ls_db st) model tokens_input_raw tokens_out
                    tokens_cache_read tokens_cache_write in
  do cost_db <- c;
  do cost <- (if flt fzero cost_db then Ok cost_db else _usage_cost_from_payload usage);
  let day := match ls_daily st !! msg_date with
             | Some d => d
             | None => {| dc_day := zero_day_counters; dc_sources := [] |}
             end in
  Ok {| ls_db := db;
        ls_model_stats :=
          od_update model zero_model_stats
            (fun s => {| ms_tokens_in := ms_tokens_in s + tokens_in;
                         ms_tokens_out := ms_tokens_out s + tokens_out;
                         ms_tokens_cache := ms_tokens_cache s + tokens_cache;
                         ms_cost := fadd (ms_cost s) cost;
                         ms_messages := ms_messages s + 1 |})
            (ls_model_stats st);
        ls_daily :=
          <[ msg_date :=
             {| dc_day := bump_day (dc_day day) tokens_in tokens_out tokens_cache
                            tokens_total cost;
                dc_sources :=
                  od_update model zero_day_counters
                    (fun s => bump_day s tokens_in tokens_out tokens_cache tokens_total cost)
                    (dc_sources day) |} ]> (ls_daily st);
        ls_total_messages := ls_total_messages st |}.

(** The body of the loop over the entries of a file. *)
Definition fold_message (since_date until_date : option datetime)
  (st : loop_state) (entry : jval) : result loop_state :=
  match entry with
  | JDict entry =>
      match dict_get entry "type" with
      | Some (JStr "message") =>
          match get_default entry "message" (JDict []) with
          | JDict message =>
              match dict_get message "role" with
              | Some (JStr "assistant") =>
                  match _parse_message_datetime (dict_get entry "timestamp") with
                  | None => Ok st
                  | Some msg_dt =>
                      let msg_dt :=
                        if is_aware msg_dt then msg_dt
                        else {| wall_us := wall_us msg_dt; utcoffset := Some 0 |} in
                      do before <- match since_date with
                                   | Some s => aware_lt msg_dt s
                                   | None => Ok false
                                   end;
                      if before then Ok st
                      else
                        do after <- match until_date with
                                    | Some u => aware_gt msg_dt u
                                    | None => Ok false
                                    end;
                        if after then Ok st
                        else
                          let msg_date := local_date msg_dt in
                          let st := {| ls_db := ls_db st;
                                       ls_model_stats := ls_model_stats st;
                                       ls_daily := ls_daily st;
                                       ls_total_messages := ls_total_messages st + 1 |} in
                          let usage := get_default message "usage" (JDict []) in
                          if negb (truthy usage) then Ok st
                          else
                            match usage with
                            | JDict usage => add_usage st msg_date message usage
                            | _ => Raise AttributeError
                            end
                  end
              | _ => Ok st
              end
          | _ => Raise AttributeError
          end
      | _ => Ok st
      end
  | _ => Raise AttributeError
  end.

Fixpoint fold_messages (since_date until_date : option datetime)
  (st : loop_state) (entries : list jval) : result loop_state :=
  match entries with
  | [] => Ok st
  | e :: entries' =>
      do st' <- fold_message since_date until_date st e;
      fold_messages since_date until_date st' entries'
  end.

(** The test on the modification time of a file: [true] when the file is
    read.  An exception in it skips the file. *)
Definition file_is_read (since_date : option datetime) (f : session_file) : bool :=
  match mtime f with
  | None => false
  | Some m =>
      match since_date with
      | None => true
      | Some s =>
          match aware_lt m s with
          | Ok before => negb before
          | Raise _ => false
          end
      end
  end.

Fixpoint fold_files (since_date until_date : option datetime)
  (st : loop_state) (files : list session_file) : result loop_state :=
  match files with
  | [] => Ok st
  | f :: files' =>
      if file_is_read since_date f then
        do st' <- fold_messages since_date until_date st (session_entries f);
        fold_files since_date until_date st' files'
      else fold_files since_date until_date st files'
  end.

(** The dictionary [models] and the two totals. *)
Definition model_of_stats (s : model_stats) : counters :=
  {| tokens := ms_tokens_in s + ms_tokens_out s + ms_tokens_cache s;
     tokens_in := ms_tokens_in s;
     tokens_out := ms_tokens_out s;
     tokens_cache := ms_tokens_cache s;
     cost := or_zero (ms_cost s);
     messages := ms_messages s |}.

Definition source_of (model : string) (src : day_counters) : day_source :=
  {| src_source := JStr "openclaw";
     src_modelId := JStr model;
     src_providerId := JStr (provider_of model);
     src_tokens := {| input := dc_tokens_in src; output := dc_tokens_out src;
                      cacheRead := dc_tokens_cacheRead src; cacheWrite := 0;
                      reasoning := 0 |};
     src_cost := or_zero (dc_cost src);
     src_messages := dc_messages src |}.

Definition contribution_of (date : string) (day : day_acc) : DayContribution :=
  {| date := date;
     totals := {| day_tokens := dc_tokens_total (dc_day day);
                  day_cost := py_round (or_zero (dc_cost (dc_day day))) 6;
                  day_messages := dc_messages (dc_day day) |};
     intensity := 0;
     tokenBreakdown := {| input := dc_tokens_in (dc_day day);
                          output := dc_tokens_out (dc_day day);
                          cacheRead := dc_tokens_cacheRead (dc_day day);
                          cacheWrite := 0;
                          reasoning := 0 |};
     sources := map (fun '(model, src) => source_of model src) (dc_sources day) |}.

Definition summarize (st : loop_state) : session_usage :=
  let models := map (fun '(m, s) => (m, model_of_stats s)) (ls_model_stats st) in
  {| total_tokens := zsum (map (fun '(_, c) => tokens c) models);
     total_cost := fold_left fadd (map (fun '(_, c) => cost c) models) fzero;
     total_messages := ls_total_messages st;
     models := models;
     contributions :=
       omap (fun date => contribution_of date <$> ls_daily st !! date)
            (sorted_strings (elements (dom (ls_daily st)))) |}.

(** [get_session_usage]; [files] are the session files found under
    [sessions_dir], [db] the pricing database in use. *)
Definition get_session_usage (db : PricingDatabase) (files : list session_file)
  (since_date until_date : option datetime) : result session_usage :=
  do st <- fold_files since_date until_date
             {| ls_db := db; ls_model_stats := []; ls_daily := ∅; ls_total_messages := 0 |}
             files;
  Ok (summarize st).

End SessionUsage.

End openclaw.

(* ================================================================== *)
(** * A runtime for the examples *)
(* ================================================================== *)

(** A machine whose local time zone is UTC.  Timestamps are exact for
    integers and rounded to the nearest microsecond for floats; the two
    parsers of strings are not used by the examples and reject their
    argument. *)
Definition utc_fromtimestamp (t : number) : result datetime :=
  let in_years us :=
    if (-62135596800000000 <=? us) && (us <? 253402300800000000)
    then Ok {| wall_us := us; utcoffset := Some 0 |}
    else Raise ValueError in
  match t with
  | NInt z => in_years (z * 1000000)
  | NFloat (S754_zero _) => in_years 0
  | NFloat (S754_finite s m e) =>
      let us := match e with
                | Zneg p => round_half_even_div (Zpos m * 1000000) (2 ^ Zpos p)
                | _ => Zpos m * 1000000 * 2 ^ e
                end in
      in_years (if s then - us else us)
  | NFloat _ => Raise ValueError
  end.

Definition utc_local_date (dt : datetime) : string :=
  strftime_ymd (_ord2ymd (719163 + instant dt / 86400000000)).

#[global] Instance utc_runtime : PyRuntime := {|
  float_of_str := fun _ => None;
  fromisoformat := fun _ => None;
  fromtimestamp_utc := utc_fromtimestamp;
  local_date := utc_local_date
|}.

(* ================================================================== *)
(** * Definitions used in the statements *)
(* ================================================================== *)

(** A string [s] ends with the segment [v]: it is [v], or [v] follows a
    [/]. *)
Definition ends_with_segment (v s : string) : Prop :=
  s = v \/ exists q, s = String.append q (String "/" v).

(** The spellings of Kimi k2.5: [k2p5], [k2-5] and [k2.5] alone or after
    [kimi] or [kimi-], and the two spellings without the [k]. *)
Definition kimi_spellings : list string :=
  [ "k2p5"; "k2-5"; "k2.5";
    "kimik2p5"; "kimik2-5"; "kimik2.5";
    "kimi-k2p5"; "kimi-k2-5"; "kimi-k2.5";
    "kimi2.5"; "kimi-2.5" ]%string.

(** The sign of a float; a NaN has none. *)
Definition fsign (x : float) : bool :=
  match x with
  | S754_zero s | S754_infinity s | S754_finite s _ _ => s
  | S754_nan => false
  end.

(** The cost formula of the specification, on floats. *)
Definition spec_cost (input_raw output cache_read cache_write : float)
  (input_rate output_rate cache_read_rate cache_write_rate : float) : float :=
  fdiv (fadd (fadd (fadd (fmul input_raw input_rate) (fmul output output_rate))
                   (fmul cache_read cache_read_rate))
             (fmul cache_write cache_write_rate))
       f1e6.

(** The memo holds what [resolve] computes. *)
Definition cache_ok (db : PricingDatabase) : Prop :=
  forall m r, _resolved_cache db !! m = Some r -> r = resolve (pricing db) (aliases db) m.

(** The cost of a model, without the memo. *)
Definition cost_of `{PyRuntime} (pr : gmap string jdict) (al : gmap string string) (model : string)
  (i o cr cw : Z) : result float :=
  match resolve pr al model with
  | Some p => if truthy_dict p then price_cost p i o cr cw else Ok fzero
  | None => Ok fzero
  end.

(** The integer sums of a row; the cost is left out. *)
Definition ints (c : counters) : Z * Z * Z * Z * Z :=
  (tokens c, tokens_in c, tokens_out c, tokens_cache c, messages c).

(** What an entry adds to its rows: the source, the full model name and
    the increments; [None] for an entry that is suppressed. *)
Definition entry_delta `{PyRuntime} (pr : gmap string jdict) (al : gmap string string)
  (entry : jval) : result (option (string * string * counters)) :=
  match entry with
  | JDict entry =>
      do source <- str_field entry "source" "unknown";
      do model <- str_field entry "model" "unknown";
      do full_model_name <- full_name (get_default entry "provider" (JStr "")) model;
      do input_raw <- entry_int entry "input";
      do tokens_out <- entry_int entry "output";
      do cache_read <- entry_int entry "cacheRead";
      do cache_write <- entry_int entry "cacheWrite";
      let total_tokens := input_raw + cache_write + tokens_out + cache_read in
      if total_tokens =? 0 then Ok None
      else
        do cost <- cost_of pr al full_model_name input_raw tokens_out cache_read cache_write;
        do messages <- py_int (py_or (get_default entry "messageCount" (JInt 0)) (JInt 1));
        Ok (Some (source, full_model_name,
                  {| tokens := total_tokens; tokens_in := input_raw + cache_write;
                     tokens_out := tokens_out; tokens_cache := cache_read;
                     cost := cost; messages := messages |}))
  | _ => Raise AttributeError
  end.

Fixpoint deltas `{PyRuntime} (pr : gmap string jdict) (al : gmap string string)
  (entries : list jval) : result (list (string * string * counters)) :=
  match entries with
  | [] => Ok []
  | e :: entries' =>
      do d <- entry_delta pr al e;
      do ds <- deltas pr al entries';
      Ok (match d with Some d => d :: ds | None => ds end)
  end.

Definition rows_t : Type := odict string app_acc * odict (string * string) global_row.

Definition rows (st : agg_state) : rows_t := (st_apps st, st_all st).

Definition apply_delta (r : rows_t) (d : string * string * counters) : rows_t :=
  let '(source, full_model_name, c) := d in add_to_rows source full_model_name c (fst r) (snd r).

Definition rmap {A B} (f : A -> B) (m : result A) : result B :=
  match m with Ok a => Ok (f a) | Raise e => Raise e end.

(** Rows of the result of [parse_entries_json], by their keys. *)
Definition app_row_of (u : usage_data) (source : string) : option app_row :=
  od_get source (apps u).
Definition model_row_of (u : usage_data) (source model : string) : option model_row :=
  match od_get source (apps u) with
  | Some a => find (fun m => String.eqb (name m) model) (models a)
  | None => None
  end.
Definition global_row_of (u : usage_data) (source model : string) : option global_row :=
  find (fun g => String.eqb (g_source g) source && String.eqb (g_name g) model) (all_models u).

(** Two dictionaries whose values are related under every key. *)
Definition od_equiv `{EqDecision K} {V} (R : relation V) (d1 d2 : odict K V) : Prop :=
  forall k, option_Forall2 R (od_get k d1) (od_get k d2).

(** Rows with the same integer sums. *)
Definition same_ints_model (m1 m2 : model_row) : Prop :=
  ints (m_counts m1) = ints (m_counts m2).
Definition same_ints_global (g1 g2 : global_row) : Prop :=
  ints (g_counts g1) = ints (g_counts g2).
Definition same_ints_app (a1 a2 : app_acc) : Prop :=
  ints (a_counts a1) = ints (a_counts a2) /\
  od_equiv same_ints_model (models_dict a1) (models_dict a2).

Definition rows_equiv (r1 r2 : rows_t) : Prop :=
  od_equiv same_ints_app (fst r1) (fst r2) /\
  od_equiv same_ints_global (snd r1) (snd r2).

(** The keys of the rows are those of the dictionaries that hold them. *)
Definition keyed_models (d : odict string model_row) : Prop :=
  Forall (fun kv => name (snd kv) = fst kv) d.
Definition keyed_rows (r : rows_t) : Prop :=
  Forall (fun kv => keyed_models (models_dict (snd kv)) /\ NoDup (od_keys (models_dict (snd kv))))
         (fst r) /\
  Forall (fun kv => (g_source (snd kv), g_name (snd kv)) = fst kv) (snd r) /\
  NoDup (od_keys (snd r)).

(** ** Data of the examples *)

(** A price table with one model, at 1 per million input tokens. *)
Definition unit_pricing : gmap string jdict :=
  {[ "m1"%string := [("input"%string, JInt 1)] ]}.

(** An entry of source [s1] and model [m1] with [n] input tokens. *)
Definition input_entry (n : Z) : jval :=
  JDict [ ("source", JStr "s1"); ("model", JStr "m1"); ("provider", JStr "");
          ("input", JInt n); ("output", JInt 0); ("cacheRead", JInt 0);
          ("cacheWrite", JInt 0) ]%string.

Definition three_entries : list jval :=
  [ input_entry 100000; input_entry 200000; input_entry 300000 ].
Definition three_entries_reversed : list jval :=
  [ input_entry 300000; input_entry 200000; input_entry 100000 ].

(** The entry of the specification: [input=5], [cacheWrite=27000],
    [cacheRead=100], [output=50]. *)
Definition cache_write_entry : jdict :=
  [ ("source", JStr "claude"); ("model", JStr "claude-opus-4.6");
    ("provider", JStr "github-copilot");
    ("input", JInt 5); ("output", JInt 50); ("cacheRead", JInt 100);
    ("cacheWrite", JInt 27000); ("reasoning", JInt 0); ("cost", JFloat fzero);
    ("timestamp", JInt 1700000000000) ]%string.

(** What the loop body of [parse_entries_json] reads from an entry. *)
Definition entry_reads `{PyRuntime} (db : PricingDatabase) (entry : jdict)
  (source full_model_name : string) (input_raw output cache_read cache_write : Z)
  (c : float) (msgs : Z) (db' : PricingDatabase) : Prop :=
  str_field entry "source" "unknown" = Ok source /\
  (exists model,
      str_field entry "model" "unknown" = Ok model /\
      full_name (get_default entry "provider" (JStr "")) model = Ok full_model_name) /\
  entry_int entry "input" = Ok input_raw /\
  entry_int entry "output" = Ok output /\
  entry_int entry "cacheRead" = Ok cache_read /\
  entry_int entry "cacheWrite" = Ok cache_write /\
  get_cost db full_model_name input_raw output cache_read cache_write = (Ok c, db') /\
  py_int (py_or (get_default entry "messageCount" (JInt 0)) (JInt 1)) = Ok msgs.

(** The sums of a row before an entry is added: zero for a new row. *)
Definition counts_or_zero (c : option counters) : counters :=
  match c with Some c => c | None => zero_counters end.



(** A day that reports no cache-write tokens, in its breakdown and in each
    of its sources. *)
Definition no_cache_write (d : DayContribution) : Prop :=
  cacheWrite (tokenBreakdown d) = 0 /\
  Forall (fun s => cacheWrite (src_tokens s) = 0) (sources d).



(** A session file with one assistant message of an unpriced model; the
    payload of the message reports a cost of 0.5. *)
Definition f0_5 : float := Eval vm_compute in
  fdiv (binary_normalize prec emax 1 0 false) (binary_normalize prec emax 2 0 false).

Definition paid_message (ts : Z) : jval :=
  JDict [ ("type", JStr "message"); ("timestamp", JInt ts);
          ("message",
           JDict [ ("role", JStr "assistant"); ("provider", JStr "acme");
                   ("model", JStr "m9");
                   ("usage", JDict [ ("input", JInt 10); ("output", JInt 20);
                                     ("cost", JFloat f0_5) ]) ]) ]%string.

Definition one_message_file (ts : Z) : openclaw.session_file :=
  {| openclaw.mtime := Some {| wall_us := 1800000000000000; utcoffset := Some 0 |};
     openclaw.session_entries := [paid_message ts] |}.

Definition empty_db : PricingDatabase :=
  {| pricing := ∅; aliases := ∅; _resolved_cache := ∅ |}.



Definition before (until_date : option datetime) (t : datetime) : Prop :=
  match until_date with Some u => instant t < instant u | None => True end.

(** The record of a date in a series of days. *)
Definition day_of (d : string) (l : list DayContribution) : option DayContribution :=
  find (fun x => String.eqb (date x) d) l.


(** Two series of days for the merge: the second of January is in both. *)
Definition example_day (d : string) (n i : Z) : DayContribution :=
  {| date := d;
     totals := {| day_tokens := n; day_cost := fzero; day_messages := 1 |};
     intensity := i;
     tokenBreakdown := {| input := n; output := 0; cacheRead := 0; cacheWrite := 0;
                          reasoning := 0 |};
     sources := [] |}.
Definition session_days : list DayContribution :=
  [ example_day "2026-01-01" 10 2; example_day "2026-01-02" 20 1 ].
Definition coding_days : list DayContribution :=
  [ example_day "2026-01-02" 300 3 ].

(** The float of an integer that has one. *)
Definition fl (z : Z) : float := binary_normalize prec emax z 0 false.

(** A price table with one record, which gives the rates of input and
    output only. *)
Definition mini_price : jdict := [ ("input", JInt 3); ("output", JInt 15) ]%string.
Definition mini_db : PricingDatabase :=
  {| pricing := {[ "gpt-4o-mini"%string := mini_price ]};
     aliases := ∅;
     _resolved_cache := ∅ |}.


(* ================================================================== *)
(** * Strings: facts used below *)
(* ================================================================== *)

Section StringFacts.

Implicit Types (s q v : string) (c : ascii).

Lemma append_String c q s :
  String.append (String c q) s = String c (String.append q s).
Proof. reflexivity. Qed.

Lemma append_Empty s : String.append EmptyString s = s.
Proof. reflexivity. Qed.

Lemma map_chars_app f q s :
  map_chars f (String.append q s) = String.append (map_chars f q) (map_chars f s).
Proof.
  induction q as [|c q IH]; [reflexivity|].
  rewrite append_String. simpl. now rewrite IH, append_String.
Qed.

Lemma has_char_app_true P q c s :
  P c = true -> has_char P (String.append q (String c s)) = true.
Proof.
  intros Hc. induction q as [|c' q IH].
  - rewrite append_Empty. simpl. now rewrite Hc.
  - rewrite append_String. simpl. rewrite IH. apply orb_true_r.
Qed.

Lemma append_nonempty q c s : is_empty (String.append q (String c s)) = false.
Proof. destruct q; reflexivity. Qed.

Lemma last_segment_app q v :
  has_char is_slash v = false ->
  last_segment (String.append q (String "/" v)) = v.
Proof.
  intros Hv. induction q as [|c q IH].
  - rewrite append_Empty. simpl. now rewrite Hv.
  - rewrite append_String. simpl.
    rewrite has_char_app_true by reflexivity. exact IH.
Qed.

Lemma last_segment_plain v : has_char is_slash v = false -> last_segment v = v.
Proof.
  destruct v as [|c v]; simpl; [reflexivity|].
  intros Hv. apply orb_false_elim in Hv as [Hc Hv]. now rewrite Hv, Hc.
Qed.

Lemma lstrip_app P q c s :
  P c = false ->
  exists q', lstrip_with P (String.append q (String c s)) = String.append q' (String c s).
Proof.
  intros Hc. induction q as [|c' q IH].
  - exists EmptyString. rewrite !append_Empty. simpl. now rewrite Hc.
  - rewrite append_String. simpl.
    destruct (P c'); [exact IH|]. exists (String c' q). now rewrite append_String.
Qed.

Lemma rstrip_app P q s :
  is_empty s = false -> rstrip_with P s = s ->
  rstrip_with P (String.append q s) = String.append q s.
Proof.
  intros Hne Hs. induction q as [|c q IH]; [exact Hs|].
  rewrite append_String. simpl. rewrite IH.
  destruct (String.append q s) eqn:E; [|reflexivity].
  destruct q; [rewrite append_Empty in E; subst s; discriminate | discriminate].
Qed.

(** When [s] starts with [p] and [c] does not occur in [p], the first [c]
    of [s] comes after [p]. *)
Lemma drop_prefix_app p q c s r :
  has_char (Ascii.eqb c) p = false ->
  drop_prefix p (String.append q (String c s)) = Some r ->
  exists q', r = String.append q' (String c s).
Proof.
  revert q r. induction p as [|a p IH]; intros q r Hp Hd; simpl in *.
  - exists q. congruence.
  - apply orb_false_elim in Hp as [Ha Hp].
    destruct q as [|b q].
    + rewrite append_Empty in Hd. rewrite Ascii.eqb_sym, Ha in Hd. discriminate.
    + rewrite append_String in Hd.
      destruct (Ascii.eqb a b); [|discriminate]. eauto.
Qed.

End StringFacts.

(* ================================================================== *)
(** * The model name normaliser *)
(* ================================================================== *)

Section ProviderPrefix.

Variable v : string.
Hypothesis v_nonempty : is_empty v = false.
Hypothesis v_rstrip : rstrip_with is_space v = v.
Hypothesis v_lower : lower v = v.
Hypothesis v_replace : replace_char "\" "/" v = v.
Hypothesis v_no_slash : has_char is_slash v = false.

Lemma strip_prefixed q :
  exists q', strip (String.append q (String "/" v)) = String.append q' (String "/" v).
Proof.
  unfold strip, strip_with.
  destruct (lstrip_app is_space q "/" v eq_refl) as [q' ->].
  exists q'. apply rstrip_app; [reflexivity|].
  simpl. rewrite v_rstrip. now destruct v.
Qed.

Lemma sub_models_prefix_prefixed q :
  ends_with_segment v
    (sub_models_prefix (fun c => Ascii.eqb c ":" || is_slash c)
       (String.append q (String "/" v))).
Proof.
  unfold sub_models_prefix, ends_with_segment.
  destruct (drop_prefix "model" (String.append q (String "/" v))) as [r|] eqn:Hd;
    [|right; eauto].
  apply drop_prefix_app in Hd as [q1 ->]; [|reflexivity].
  destruct q1 as [|c q2]; [left; reflexivity|].
  rewrite append_String.
  destruct (Ascii.eqb c "s").
  - destruct q2 as [|c' q3]; [left; reflexivity|].
    rewrite append_String.
    destruct (Ascii.eqb c' ":" || is_slash c'); right; eauto.
  - destruct (Ascii.eqb c ":" || is_slash c); right; eauto.
Qed.

(** Whatever precedes the last [/], the normaliser goes on with the
    segment after it. *)
Lemma normalize_prefixed p :
  normalize_model_name (String.append p (String "/" v)) = canonical_segment v.
Proof.
  unfold normalize_model_name.
  destruct (strip_prefixed p) as [q ->].
  assert (Hl : lower (String.append q (String "/" v))
               = String.append (lower q) (String "/" v)).
  { unfold lower. rewrite map_chars_app. simpl. f_equal. f_equal. exact v_lower. }
  rewrite Hl, append_nonempty. f_equal.
  unfold model_segment.
  assert (Hr : replace_char "\" "/" (String.append (lower q) (String "/" v))
               = String.append (replace_char "\" "/" (lower q)) (String "/" v)).
  { unfold replace_char. rewrite map_chars_app. simpl. f_equal. f_equal. exact v_replace. }
  rewrite Hr.
  destruct (sub_models_prefix_prefixed (replace_char "\" "/" (lower q))) as [-> | [q' ->]].
  - now apply last_segment_plain.
  - now apply last_segment_app.
Qed.

End ProviderPrefix.

(** C6. Every spelling of Kimi k2.5, alone or behind any provider prefix,
    normalises to the one key [kimi-k2.5]. *)
Theorem normalize_kimi_k25 (v : string) :
  In v kimi_spellings ->
  normalize_model_name v = "kimi-k2.5"%string /\
  forall provider : string,
    normalize_model_name (String.append provider (String "/" v)) = "kimi-k2.5"%string.
Proof.
  intros Hv. simpl in Hv.
  repeat (destruct Hv as [<- | Hv];
          [split; [reflexivity | intros p; now rewrite normalize_prefixed]|]).
  contradiction.
Qed.

(** The five raw strings named by the specification. *)
Lemma normalize_kimi_k25_examples :
  normalize_model_name "kimi/kimi-k2p5" = "kimi-k2.5"%string /\
  normalize_model_name "kimi-coding/kimi-k2.5" = "kimi-k2.5"%string /\
  normalize_model_name "infi/kimi-2.5" = "kimi-k2.5"%string /\
  normalize_model_name "kimi-k2-5" = "kimi-k2.5"%string /\
  normalize_model_name "kimi2.5" = "kimi-k2.5"%string.
Proof.
  refine (conj _ (conj _ (conj _ (conj _ _)))).
  - apply (proj2 (normalize_kimi_k25 "kimi-k2p5" ltac:(simpl; tauto)) "kimi"%string).
  - apply (proj2 (normalize_kimi_k25 "kimi-k2.5" ltac:(simpl; tauto)) "kimi-coding"%string).
  - apply (proj2 (normalize_kimi_k25 "kimi-2.5" ltac:(simpl; tauto)) "infi"%string).
  - apply (proj1 (normalize_kimi_k25 "kimi-k2-5" ltac:(simpl; tauto))).
  - apply (proj1 (normalize_kimi_k25 "kimi2.5" ltac:(simpl; tauto))).
Defined.

(* ================================================================== *)
(** * The pricing resolver *)
(* ================================================================== *)

Section PricingFacts.
Context `{PyRuntime}.

Lemma fmul_comm x y : fmul x y = fmul y x.
Proof.
  unfold fmul.
  destruct x as [sx|sx| |sx mx ex], y as [sy|sy| |sy my ey]; simpl;
    try reflexivity; try (now destruct sx, sy).
  now rewrite Pos.mul_comm, Z.add_comm, xorb_comm.
Qed.

Lemma round_keeps_sign mx ex lx :
  binary_round_aux prec emax false mx ex lx <> S754_zero true.
Proof.
  unfold binary_round_aux.
  destruct (shr_fexp prec emax mx ex lx) as [mrs' e'].
  destruct (shr_fexp prec emax _ e' loc_Exact) as [mrs'' e''].
  destruct (shr_m mrs''); try discriminate.
  destruct (e'' <=? emax - prec); discriminate.
Qed.

Lemma fmul_not_neg_zero x y :
  fsign x = false -> fsign y = false -> fmul x y <> S754_zero true.
Proof.
  unfold fmul.
  destruct x as [sx|sx| |sx mx ex], y as [sy|sy| |sy my ey]; simpl;
    intros Hx Hy; try subst sx; try subst sy; simpl; try discriminate.
  apply round_keeps_sign.
Qed.

(** [float(x or 0.0)] for a float that is not the negative zero. *)
Lemma float_or_zero x :
  x <> S754_zero true -> py_float (py_or (JFloat x) (JFloat fzero)) = Ok x.
Proof.
  intros Hx. destruct x as [[]| | |]; try reflexivity. congruence.
Qed.

Lemma rate_absent p k dflt :
  dict_get p k = None -> dflt <> S754_zero true -> rate p k dflt = Ok dflt.
Proof.
  intros Hk Hd. unfold rate, get_default. rewrite Hk. now apply float_or_zero.
Qed.

Lemma get_cost_unresolved db model i o cr cw :
  fst (_resolve_pricing db model) = None ->
  fst (get_cost db model i o cr cw) = Ok fzero.
Proof.
  unfold get_cost. destruct (_resolve_pricing db model) as [[p|] db']; simpl.
  - discriminate.
  - reflexivity.
Qed.

Lemma get_cost_resolved db model p i o cr cw :
  fst (_resolve_pricing db model) = Some p -> truthy_dict p = true ->
  fst (get_cost db model i o cr cw) = price_cost p i o cr cw.
Proof.
  unfold get_cost. destruct (_resolve_pricing db model) as [[q|] db']; simpl.
  - intros [= ->] ->. reflexivity.
  - discriminate.
Qed.

(** ** Resolution in an empty price table *)

Lemma consider_empty seen k : fst (consider ∅ seen k) = None.
Proof.
  unfold consider. destruct (is_empty k); [reflexivity|].
  destruct (decide (k ∈ seen)); [reflexivity|]. simpl. apply lookup_empty.
Qed.

Lemma try_keys_empty ks : forall seen, fst (try_keys ∅ seen ks) = None.
Proof.
  induction ks as [|k ks IH]; intros seen; simpl; [reflexivity|].
  pose proof (consider_empty seen k) as Hc.
  destruct (consider ∅ seen k) as [[d|] seen']; simpl in Hc; [discriminate|].
  apply IH.
Qed.

Lemma try_aliases_empty al aks : forall seen, fst (try_aliases ∅ al seen aks) = None.
Proof.
  induction aks as [|ak aks IH]; intros seen; simpl; [reflexivity|].
  destruct (is_empty ak); [apply IH|].
  destruct (al !! ak) as [target|]; [|apply IH].
  destruct (is_empty target); [apply IH|].
  pose proof (consider_empty seen target) as Hc.
  destruct (consider ∅ seen target) as [[d|] seen']; simpl in Hc; [discriminate|].
  apply IH.
Qed.

Lemma resolve_empty al model : resolve ∅ al model = None.
Proof.
  unfold resolve.
  match goal with |- context [try_keys ∅ ∅ ?ks] =>
    pose proof (try_keys_empty ks ∅) as H1; destruct (try_keys ∅ ∅ ks) as [[d|] seen1]
  end; simpl in H1; [discriminate|].
  match goal with |- context [try_aliases ∅ al seen1 ?aks] =>
    pose proof (try_aliases_empty al aks seen1) as H2;
    destruct (try_aliases ∅ al seen1 aks) as [[d|] seen2]
  end; simpl in H2; [discriminate|].
  apply try_keys_empty.
Qed.

(** ** The memo is transparent *)

Lemma cache_ok_fresh pr al :
  cache_ok {| pricing := pr; aliases := al; _resolved_cache := ∅ |}.
Proof. intros m r. simpl. rewrite lookup_empty. discriminate. Qed.

Lemma _resolve_pricing_cached db model :
  cache_ok db ->
  fst (_resolve_pricing db model) = resolve (pricing db) (aliases db) model /\
  cache_ok (snd (_resolve_pricing db model)) /\
  pricing (snd (_resolve_pricing db model)) = pricing db /\
  aliases (snd (_resolve_pricing db model)) = aliases db.
Proof.
  intros Hok. unfold _resolve_pricing.
  destruct (_resolved_cache db !! model) as [cached|] eqn:Hc; simpl.
  - repeat split; auto.
  - repeat split; auto. intros m r. simpl.
    destruct (decide (model = m)) as [->|Hne].
    + rewrite lookup_insert_eq. congruence.
    + rewrite lookup_insert_ne by exact Hne. apply Hok.
Qed.

Lemma get_cost_cached db model i o cr cw :
  cache_ok db ->
  fst (get_cost db model i o cr cw) = cost_of (pricing db) (aliases db) model i o cr cw /\
  cache_ok (snd (get_cost db model i o cr cw)) /\
  pricing (snd (get_cost db model i o cr cw)) = pricing db /\
  aliases (snd (get_cost db model i o cr cw)) = aliases db.
Proof.
  intros Hok. destruct (_resolve_pricing_cached db model Hok) as (Hr & Hok' & Hp & Ha).
  unfold get_cost, cost_of. rewrite <- Hr.
  destruct (_resolve_pricing db model) as [[p|] db']; simpl in *.
  - destruct (truthy_dict p); simpl; auto.
  - auto.
Qed.

End PricingFacts.

(** C2. For a model that resolves to a price record, [get_cost] is the
    formula of the specification: the input rate multiplies the raw input
    tokens, cache writes have their own rate, an absent [cache_read] rate
    is 0.1 times the input rate and an absent [cache_write] rate is the
    input rate.  The rates of the record and the token counts are taken
    convertible to floats, and the input rate not negative. *)
Theorem get_cost_formula `{PyRuntime} (db : PricingDatabase) (model : string) (p : jdict)
  (input_raw output cache_read cache_write : Z)
  (input_rate output_rate cache_read_rate cache_write_rate : float)
  (fi fo fcr fcw : float) :
  fst (_resolve_pricing db model) = Some p ->
  truthy_dict p = true ->
  rate p "input" fzero = Ok input_rate ->
  rate p "output" fzero = Ok output_rate ->
  rate p "cache_read" (fmul f0_1 input_rate) = Ok cache_read_rate ->
  rate p "cache_write" input_rate = Ok cache_write_rate ->
  float_of_int input_raw = Ok fi ->
  float_of_int output = Ok fo ->
  float_of_int cache_read = Ok fcr ->
  float_of_int cache_write = Ok fcw ->
  fsign input_rate = false ->
  fst (get_cost db model input_raw output cache_read cache_write)
  = Ok (spec_cost fi fo fcr fcw input_rate output_rate cache_read_rate cache_write_rate)
  /\ (dict_get p "cache_read" = None -> cache_read_rate = fmul f0_1 input_rate)
  /\ (dict_get p "cache_write" = None -> cache_write_rate = input_rate).
Proof.
  intros Hres Hp Hi Ho Hcr Hcw Hfi Hfo Hfcr Hfcw Hsign.
  split; [|split].
  - rewrite (get_cost_resolved db model p) by assumption.
    unfold price_cost. rewrite Hi. simpl. rewrite Ho. simpl.
    rewrite (fmul_comm input_rate f0_1), Hcr. simpl. rewrite Hcw. simpl.
    rewrite Hfi, Hfo, Hfcr, Hfcw. reflexivity.
  - intros Habs. rewrite rate_absent in Hcr; [congruence | assumption |].
    apply fmul_not_neg_zero; [reflexivity | assumption].
  - intros Habs. rewrite rate_absent in Hcw; [congruence | assumption |].
    destruct input_rate as [[]| | |]; simpl in Hsign; congruence.
Qed.

(** C2 on a dated, provider-prefixed name of the one model of the table:
    1000 raw input tokens, 2000 output tokens, 300 cache reads and 400
    cache writes, with the two cache rates at their defaults. *)
Lemma get_cost_formula_witness :
  fst (get_cost mini_db "openai/gpt-4o-mini-2024-07-18" 1000 2000 300 400)
  = Ok (spec_cost (fl 1000) (fl 2000) (fl 300) (fl 400)
                  (fl 3) (fl 15) (fmul f0_1 (fl 3)) (fl 3)).
Proof.
  apply (@get_cost_formula utc_runtime mini_db "openai/gpt-4o-mini-2024-07-18" mini_price
           1000 2000 300 400 (fl 3) (fl 15) (fmul f0_1 (fl 3)) (fl 3)
           (fl 1000) (fl 2000) (fl 300) (fl 400));
    vm_compute; reflexivity.
Defined.

(* ================================================================== *)
(** * Ordered dictionaries, sums and sorting *)
(* ================================================================== *)

Section OdictFacts.
Context `{EqDecision K} {V : Type}.
Implicit Types (k : K) (v : V) (d : odict K V).

Lemma od_get_set k k' v d :
  od_get k' (od_set k v d) = if decide (k' = k) then Some v else od_get k' d.
Proof.
  induction d as [|[k0 v0] d IH]; simpl.
  - repeat case_decide; congruence.
  - destruct (decide (k = k0)) as [->|Hne]; simpl;
      repeat case_decide; try congruence.
Qed.

Lemma od_get_update k k' dflt (f : V -> V) d :
  od_get k' (od_update k dflt f d)
  = if decide (k' = k)
    then Some (f (match od_get k d with Some v => v | None => dflt end))
    else od_get k' d.
Proof. unfold od_update. apply od_get_set. Qed.

Lemma od_keys_set_elem k k' v d :
  k' ∈ od_keys (od_set k v d) <-> k' = k \/ k' ∈ od_keys d.
Proof.
  unfold od_keys. induction d as [|[k0 v0] d IH]; simpl.
  - rewrite list_elem_of_singleton, elem_of_nil. tauto.
  - destruct (decide (k = k0)) as [->|Hne]; simpl.
    + rewrite elem_of_cons. tauto.
    + rewrite !elem_of_cons, IH. tauto.
Qed.

Lemma od_keys_set_NoDup k v d : NoDup (od_keys d) -> NoDup (od_keys (od_set k v d)).
Proof.
  unfold od_keys. induction d as [|[k0 v0] d IH]; simpl; intros Hd.
  - apply NoDup_singleton.
  - apply NoDup_cons in Hd as [Hk0 Hd].
    destruct (decide (k = k0)) as [->|Hne]; simpl.
    + now apply NoDup_cons.
    + apply NoDup_cons. split; [|auto].
      intros Hin. apply (od_keys_set_elem k k0 v d) in Hin as [->|Hin]; auto.
Qed.

Lemma od_set_Forall (P : K * V -> Prop) k v d :
  Forall P d -> P (k, v) -> Forall P (od_set k v d).
Proof.
  intros Hd Hkv. induction d as [|[k0 v0] d IH]; simpl.
  - now constructor.
  - apply Forall_cons in Hd as [H0 Hd].
    destruct (decide (k = k0)); constructor; auto.
Qed.

Lemma od_get_elem k v d : od_get k d = Some v -> (k, v) ∈ d.
Proof.
  induction d as [|[k0 v0] d IH]; simpl; [discriminate|].
  destruct (decide (k = k0)) as [->|Hne].
  - intros [= ->]. apply list_elem_of_here.
  - intros Hg. apply list_elem_of_further. auto.
Qed.

Lemma od_elem_get k v d : NoDup (od_keys d) -> (k, v) ∈ d -> od_get k d = Some v.
Proof.
  unfold od_keys. induction d as [|[k0 v0] d IH]; simpl; intros Hd Hin.
  - now apply elem_of_nil in Hin.
  - apply NoDup_cons in Hd as [Hk0 Hd].
    apply elem_of_cons in Hin as [[= -> ->]|Hin].
    + now rewrite decide_True.
    + destruct (decide (k = k0)) as [->|Hne]; [|auto].
      exfalso. apply Hk0. apply list_elem_of_fmap. now exists (k0, v).
Qed.

Lemma od_get_map {W} (g : V -> W) k d :
  od_get k (map (fun '(k, v) => (k, g v)) d) = g <$> od_get k d.
Proof.
  induction d as [|[k0 v0] d IH]; simpl; [reflexivity|].
  destruct (decide (k = k0)); [reflexivity | exact IH].
Qed.

End OdictFacts.

Section SumFacts.

Lemma zsum_from l : forall a, fold_left Z.add l a = a + zsum l.
Proof.
  unfold zsum. induction l as [|x l IH]; intros a; simpl; [lia|].
  rewrite (IH (a + x)), (IH (0 + x)). lia.
Qed.

Lemma zsum_cons x l : zsum (x :: l) = x + zsum l.
Proof. unfold zsum at 1. simpl. rewrite zsum_from. lia. Qed.

Lemma zsum_app l1 l2 : zsum (l1 ++ l2) = zsum l1 + zsum l2.
Proof.
  induction l1 as [|x l1 IH]; simpl; [reflexivity|].
  rewrite !zsum_cons, IH. lia.
Qed.

Lemma zsum_perm l1 l2 : l1 ≡ₚ l2 -> zsum l1 = zsum l2.
Proof.
  induction 1; rewrite ?zsum_cons; lia.
Qed.

(** Adding [delta] to the row of a key adds it to the sum over the rows. *)
Lemma zsum_od_update `{EqDecision K} {V} (f : V -> Z) (g : V -> V) (delta : Z)
  (k : K) (dflt : V) (d : odict K V) :
  f dflt = 0 -> (forall v, f (g v) = f v + delta) ->
  zsum (map f (od_values (od_update k dflt g d))) = zsum (map f (od_values d)) + delta.
Proof.
  intros H0 Hg. unfold od_update, od_values.
  induction d as [|[k0 v0] d IH]; simpl.
  - rewrite zsum_cons, Hg, H0. lia.
  - destruct (decide (k = k0)) as [->|Hne]; simpl.
    + rewrite !zsum_cons, Hg. lia.
    + rewrite !zsum_cons, IH. lia.
Qed.

End SumFacts.

Section SortFacts.
Context {A : Type} (key : A -> float).

Lemma insert_desc_perm x l : insert_desc key x l ≡ₚ x :: l.
Proof.
  induction l as [|y l IH]; simpl; [reflexivity|].
  destruct (flt (key x) (key y)); [|reflexivity].
  rewrite IH. apply Permutation_swap.
Qed.

Lemma sorted_desc_perm l : sorted_desc key l ≡ₚ l.
Proof.
  unfold sorted_desc. induction l as [|x l IH]; simpl; [reflexivity|].
  now rewrite insert_desc_perm, IH.
Qed.

(** A search that at most one element satisfies finds the same in every
    arrangement of the list. *)
Lemma find_unique (P : A -> bool) l x :
  x ∈ l -> P x = true -> (forall y, y ∈ l -> P y = true -> y = x) ->
  find P l = Some x.
Proof.
  induction l as [|y l IH]; intros Hin Hx Hu; [now apply elem_of_nil in Hin|].
  simpl. destruct (P y) eqn:Hy.
  - f_equal. apply Hu; [apply list_elem_of_here | exact Hy].
  - apply elem_of_cons in Hin as [->|Hin]; [congruence|].
    apply IH; auto. intros z Hz. apply Hu. now apply list_elem_of_further.
Qed.

Lemma find_absent (P : A -> bool) l :
  (forall y, y ∈ l -> P y = false) -> find P l = None.
Proof.
  induction l as [|y l IH]; intros Hn; [reflexivity|].
  simpl. rewrite (Hn y) by apply list_elem_of_here.
  apply IH. intros z Hz. apply Hn. now apply list_elem_of_further.
Qed.

Lemma find_perm (P : A -> bool) l1 l2 :
  l1 ≡ₚ l2 ->
  (forall x y, x ∈ l1 -> y ∈ l1 -> P x = true -> P y = true -> x = y) ->
  find P l1 = find P l2.
Proof.
  intros Hp Hu. destruct (find P l1) as [x|] eqn:Hf.
  - apply find_some in Hf as [Hin Hx]. apply list_elem_of_In in Hin.
    symmetry. apply find_unique; auto.
    + now rewrite <- Hp.
    + intros y Hy HPy. rewrite <- Hp in Hy. now apply Hu.
  - symmetry. apply find_absent. intros y Hy. rewrite <- Hp in Hy.
    apply list_elem_of_In in Hy. exact (find_none _ _ Hf y Hy).
Qed.

End SortFacts.

(** ** Dictionaries up to a relation on their values *)

Section OdictEquiv.
Context `{EqDecision K} {V : Type} (R : relation V).

#[global] Instance od_equiv_refl : Reflexive R -> Reflexive (od_equiv (K:=K) R).
Proof. intros HR d k. destruct (od_get k d); constructor. apply HR. Qed.

#[global] Instance od_equiv_sym : Symmetric R -> Symmetric (od_equiv (K:=K) R).
Proof. intros HR d1 d2 H12 k. destruct (H12 k); constructor. now apply HR. Qed.

#[global] Instance od_equiv_trans : Transitive R -> Transitive (od_equiv (K:=K) R).
Proof.
  intros HR d1 d2 d3 H12 H23 k. specialize (H12 k). specialize (H23 k).
  destruct H12; inversion H23; subst; constructor. eapply HR; eauto.
Qed.

Lemma od_update_equiv (k : K) (dflt : V) (f : V -> V) (d1 d2 : odict K V) :
  R dflt dflt -> (forall x y, R x y -> R (f x) (f y)) ->
  od_equiv R d1 d2 -> od_equiv R (od_update k dflt f d1) (od_update k dflt f d2).
Proof.
  intros Hd Hf H12 k'. rewrite !od_get_update.
  destruct (decide (k' = k)); [|apply H12].
  constructor. apply Hf. destruct (H12 k); auto.
Qed.

Lemma od_update_swap (k1 k2 : K) (dflt1 dflt2 : V) (f1 f2 : V -> V) (d : odict K V) :
  Reflexive R -> (k1 = k2 -> dflt1 = dflt2) ->
  (forall x, R (f1 (f2 x)) (f2 (f1 x))) ->
  od_equiv R (od_update k1 dflt1 f1 (od_update k2 dflt2 f2 d))
             (od_update k2 dflt2 f2 (od_update k1 dflt1 f1 d)).
Proof.
  intros HR Hd Hf k. rewrite !od_get_update.
  repeat case_decide; subst; try congruence; try reflexivity.
  constructor. rewrite (Hd eq_refl). apply Hf.
Qed.

End OdictEquiv.

(** A left fold whose steps commute up to an equivalence gives equivalent
    results on the arrangements of a list. *)
Lemma fold_left_perm_equiv {S D} (R : relation S) `{!Equivalence R} (step : S -> D -> S) :
  (forall s1 s2 d, R s1 s2 -> R (step s1 d) (step s2 d)) ->
  (forall s d1 d2, R (step (step s d1) d2) (step (step s d2) d1)) ->
  forall l1 l2, l1 ≡ₚ l2 -> forall s, R (fold_left step l1 s) (fold_left step l2 s).
Proof.
  intros Hcong Hswap.
  assert (Hfold : forall l s1 s2, R s1 s2 -> R (fold_left step l s1) (fold_left step l s2)).
  { induction l as [|d l IH]; intros s1 s2 H12; simpl; auto. }
  induction 1 as [|d l1 l2 _ IH|d1 d2 l|l1 l2 l3 _ IH1 _ IH2]; intros s; simpl.
  - reflexivity.
  - apply IH.
  - apply Hfold, Hswap.
  - etransitivity; [apply IH1 | apply IH2].
Qed.

(* ================================================================== *)
(** * Aggregation by app and model *)
(* ================================================================== *)

Ltac bind_cases :=
  match goal with
  | |- context [rbind ?m _] =>
      let r := fresh "r" in destruct m as [r|r] eqn:?; simpl
  end.

Section AggregationFacts.
Context `{PyRuntime}.

(** The loop body adds the increments of the entry to the rows; the memo
    of the database does not change what it computes. *)
Lemma fold_entry_delta st e :
  cache_ok (st_db st) ->
  rmap rows (fold_entry st e)
  = rmap (fun d => match d with Some d => apply_delta (rows st) d | None => rows st end)
         (entry_delta (pricing (st_db st)) (aliases (st_db st)) e)
  /\ forall st', fold_entry st e = Ok st' ->
       cache_ok (st_db st') /\ pricing (st_db st') = pricing (st_db st)
       /\ aliases (st_db st') = aliases (st_db st).
Proof.
  intros Hok.
  destruct e as [| | | | | |e]; try (split; [reflexivity | discriminate]).
  unfold fold_entry, entry_delta.
  do 7 (bind_cases; [|split; [reflexivity | discriminate]]).
  destruct (_ =? 0); [split; [reflexivity | intros st' [= <-]; auto]|].
  match goal with |- context [get_cost ?db ?m ?i ?o ?cr ?cw] =>
    destruct (get_cost_cached db m i o cr cw Hok) as (Hc & Hok' & Hp & Ha);
    destruct (get_cost db m i o cr cw) as [c db'] end.
  simpl in Hc, Hok', Hp, Ha. rewrite <- Hc.
  destruct c as [c|err]; simpl; [|split; [reflexivity | discriminate]].
  bind_cases; [|split; [reflexivity | discriminate]].
  split; [reflexivity|]. intros st' [= <-]. auto.
Qed.

Lemma fold_entries_deltas es : forall st,
  cache_ok (st_db st) ->
  rmap rows (fold_entries st es)
  = rmap (fun ds => fold_left apply_delta ds (rows st))
         (deltas (pricing (st_db st)) (aliases (st_db st)) es).
Proof.
  induction es as [|e es IH]; intros st Hok; simpl; [reflexivity|].
  destruct (fold_entry_delta st e Hok) as [Hd Hinv].
  destruct (fold_entry st e) as [st'|err];
    destruct (entry_delta _ _ e) as [d|err']; simpl in *; try discriminate.
  - destruct (Hinv st' eq_refl) as (Hok' & Hp & Ha).
    rewrite (IH st' Hok'), Hp, Ha.
    injection Hd as Hd. rewrite Hd.
    destruct (deltas _ _ es) as [ds|err]; simpl; [|reflexivity].
    destruct d; reflexivity.
  - exact Hd.
Qed.

Lemma finish_rows st1 st2 : rows st1 = rows st2 -> finish st1 = finish st2.
Proof. unfold rows, finish. now intros [= -> ->]. Qed.

(** The increments of a rearranged list are the rearranged increments. *)
Lemma deltas_perm pr al es1 es2 :
  es1 ≡ₚ es2 -> forall ds1, deltas pr al es1 = Ok ds1 ->
  exists ds2, deltas pr al es2 = Ok ds2 /\ ds1 ≡ₚ ds2.
Proof.
  induction 1 as [|e es1 es2 _ IH|e1 e2 es|es1 es2 es3 _ IH1 _ IH2]; intros ds1; simpl.
  - intros [= <-]. now exists [].
  - destruct (entry_delta pr al e) as [d|]; simpl; [|discriminate].
    destruct (deltas pr al es1) as [ds|]; simpl; [|discriminate].
    intros [= <-]. destruct (IH ds eq_refl) as (ds2 & -> & Hp). simpl.
    eexists; split; [reflexivity|]. destruct d; now rewrite Hp.
  - destruct (entry_delta pr al e1) as [d1|]; simpl;
      destruct (entry_delta pr al e2) as [d2|]; simpl; try discriminate.
    destruct (deltas pr al es) as [ds|]; simpl; [|discriminate].
    intros [= <-]. eexists; split; [reflexivity|].
    destruct d1, d2; try reflexivity. apply Permutation_swap.
  - intros H1. destruct (IH1 ds1 H1) as (ds2 & H2 & Hp12).
    destruct (IH2 ds2 H2) as (ds3 & H3 & Hp23).
    exists ds3. split; [exact H3 | now rewrite Hp12].
Qed.

End AggregationFacts.

(** ** Rows up to their cost *)

Lemma ints_bump c1 c2 d : ints c1 = ints c2 -> ints (bump c1 d) = ints (bump c2 d).
Proof. unfold ints, bump. simpl. intros [= -> -> -> -> ->]. reflexivity. Qed.

Lemma ints_bump_swap c d1 d2 : ints (bump (bump c d1) d2) = ints (bump (bump c d2) d1).
Proof. unfold ints, bump. simpl. repeat (apply (f_equal2 (@pair _ _))); lia. Qed.

#[local] Instance same_ints_model_equivalence : Equivalence same_ints_model.
Proof. unfold same_ints_model. split; red; intros; congruence. Qed.

#[local] Instance same_ints_global_equivalence : Equivalence same_ints_global.
Proof. unfold same_ints_global. split; red; intros; congruence. Qed.

#[local] Instance same_ints_app_equivalence : Equivalence same_ints_app.
Proof.
  unfold same_ints_app. split.
  - intros a. split; reflexivity.
  - intros a b [H1 H2]. split; now symmetry.
  - intros a b c [H1 H2] [H3 H4]. split; etransitivity; eauto.
Qed.

#[local] Instance rows_equiv_equivalence : Equivalence rows_equiv.
Proof.
  unfold rows_equiv. split.
  - intros r. split; reflexivity.
  - intros r1 r2 [H1 H2]. split; now symmetry.
  - intros r1 r2 r3 [H1 H2] [H3 H4]. split; etransitivity; eauto.
Qed.

Lemma apply_delta_equiv r1 r2 d :
  rows_equiv r1 r2 -> rows_equiv (apply_delta r1 d) (apply_delta r2 d).
Proof.
  destruct d as [[source full] c]. intros [Ha Hg]. split; simpl.
  - apply od_update_equiv; [reflexivity | | exact Ha].
    intros a1 a2 [Hc Hm]. split; simpl; [now apply ints_bump|].
    apply od_update_equiv; [reflexivity | | exact Hm].
    intros m1 m2 Hm12. now apply ints_bump.
  - apply od_update_equiv; [reflexivity | | exact Hg].
    intros g1 g2 Hg12. now apply ints_bump.
Qed.

Lemma apply_delta_swap r d1 d2 :
  rows_equiv (apply_delta (apply_delta r d1) d2) (apply_delta (apply_delta r d2) d1).
Proof.
  destruct d1 as [[s1 n1] c1], d2 as [[s2 n2] c2]. split; simpl.
  - apply od_update_swap; [apply _ | reflexivity |].
    intros a. split; simpl; [apply ints_bump_swap|].
    apply od_update_swap; [apply _ | congruence |]. intros m. apply ints_bump_swap.
  - apply od_update_swap; [apply _ | congruence |]. intros g. apply ints_bump_swap.
Qed.

Lemma fold_deltas_perm ds1 ds2 r :
  ds1 ≡ₚ ds2 ->
  rows_equiv (fold_left apply_delta ds1 r) (fold_left apply_delta ds2 r).
Proof.
  intros Hp. revert r.
  apply (fold_left_perm_equiv rows_equiv apply_delta);
    [apply apply_delta_equiv | intros; apply apply_delta_swap | exact Hp].
Qed.

(** ** The sums over all rows *)

Lemma global_sum_fold (f : counters -> Z) ds :
  f zero_counters = 0 -> (forall c d, f (bump c d) = f c + f d) ->
  forall r,
    zsum (map (fun g => f (g_counts g)) (od_values (snd (fold_left apply_delta ds r))))
    = zsum (map (fun g => f (g_counts g)) (od_values (snd r)))
      + zsum (map (fun d => f (snd d)) ds).
Proof.
  intros H0 Hb. induction ds as [|[[source full] c] ds IH]; intros r; simpl.
  - unfold zsum at 3. simpl. lia.
  - rewrite IH, zsum_cons. simpl.
    rewrite (zsum_od_update (fun g => f (g_counts g)) _ (f c)); [lia | exact H0 |].
    intros g. simpl. apply Hb.
Qed.

(** ** Keys of the rows *)

Lemma keyed_rows_empty : keyed_rows ([], []).
Proof. repeat split; constructor. Qed.

Lemma apply_delta_keyed r d : keyed_rows r -> keyed_rows (apply_delta r d).
Proof.
  destruct d as [[source full] c]. intros (Ha & Hg & Hn). repeat split; simpl.
  - apply od_set_Forall; [exact Ha|]. simpl.
    assert (Hold : keyed_models
                     (models_dict match od_get source r.1 with
                                  | Some a => a
                                  | None => {| a_counts := zero_counters; models_dict := [] |}
                                  end)
                   /\ NoDup (od_keys
                     (models_dict match od_get source r.1 with
                                  | Some a => a
                                  | None => {| a_counts := zero_counters; models_dict := [] |}
                                  end))).
    { destruct (od_get source r.1) as [a|] eqn:Hs; simpl.
      - apply od_get_elem in Hs. rewrite Forall_forall in Ha.
        exact (Ha (source, a) Hs).
      - split; constructor. }
    destruct Hold as [Hk Hnd]. split.
    + apply od_set_Forall; [exact Hk|]. simpl.
      destruct (od_get full _) as [m|] eqn:Hm; simpl; [|reflexivity].
      apply od_get_elem in Hm. unfold keyed_models in Hk. rewrite Forall_forall in Hk.
      exact (Hk (full, m) Hm).
    + now apply od_keys_set_NoDup.
  - apply od_set_Forall; [exact Hg|]. simpl.
    destruct (od_get (source, full) r.2) as [g|] eqn:Hs; simpl; [|reflexivity].
    apply od_get_elem in Hs. rewrite Forall_forall in Hg.
    exact (Hg (source, full, g) Hs).
  - now apply od_keys_set_NoDup.
Qed.

Lemma fold_deltas_keyed ds : forall r,
  keyed_rows r -> keyed_rows (fold_left apply_delta ds r).
Proof.
  induction ds as [|d ds IH]; intros r Hr; simpl; [exact Hr|].
  apply IH. now apply apply_delta_keyed.
Qed.

(** A search by key in any arrangement of the values of a dictionary is
    the lookup of the key. *)
Lemma find_by_key `{EqDecision K} {V} (kf : V -> K) (P : V -> bool) (k : K)
  (d : odict K V) (l : list V) :
  Forall (fun kv => kf (snd kv) = fst kv) d -> NoDup (od_keys d) ->
  (forall v, P v = true <-> kf v = k) ->
  l ≡ₚ od_values d ->
  find P l = od_get k d.
Proof.
  intros Hk Hn HP Hl. rewrite Forall_forall in Hk.
  assert (Hin : forall v, v ∈ l -> (kf v, v) ∈ d).
  { intros v Hv. rewrite Hl in Hv. unfold od_values in Hv.
    apply list_elem_of_fmap in Hv as ([k' v'] & -> & Hv).
    pose proof (Hk _ Hv) as Hkv. simpl in *. now rewrite Hkv. }
  destruct (od_get k d) as [v|] eqn:Hg.
  - apply find_unique.
    + rewrite Hl. unfold od_values. apply list_elem_of_fmap.
      exists (k, v). split; [reflexivity | now apply od_get_elem].
    + apply HP. apply od_get_elem in Hg. exact (Hk _ Hg).
    + intros y Hy HPy. apply HP in HPy. apply Hin in Hy. rewrite HPy in Hy.
      apply (od_elem_get _ _ _ Hn) in Hy. congruence.
  - apply find_absent. intros y Hy. destruct (P y) eqn:HPy; [|reflexivity].
    apply HP in HPy. apply Hin in Hy. rewrite HPy in Hy.
    apply (od_elem_get _ _ _ Hn) in Hy. congruence.
Qed.

(** ** Order of the entries *)

Section OrderIndependence.
Context `{PyRuntime}.

Lemma finish_app_row st source :
  app_row_of (finish st) source
  = (fun a => {| app_counts := a_counts a;
                 models := sorted_desc (fun m => cost (m_counts m))
                             (od_values (models_dict a)) |})
    <$> od_get source (st_apps st).
Proof. unfold app_row_of, finish. simpl. apply od_get_map. Qed.

Lemma finish_model_row st source model :
  keyed_rows (rows st) ->
  model_row_of (finish st) source model
  = match od_get source (st_apps st) with
    | Some a => od_get model (models_dict a)
    | None => None
    end.
Proof.
  intros (Ha & _ & _). unfold model_row_of. fold (app_row_of (finish st) source).
  rewrite finish_app_row.
  destruct (od_get source (st_apps st)) as [a|] eqn:Hs; simpl; [|reflexivity].
  apply od_get_elem in Hs. rewrite Forall_forall in Ha.
  destruct (Ha _ Hs) as [Hk Hn]. simpl in Hk, Hn.
  apply (find_by_key name); auto.
  - intros m. apply String.eqb_eq.
  - apply sorted_desc_perm.
Qed.

Lemma finish_global_row st source model :
  keyed_rows (rows st) ->
  global_row_of (finish st) source model = od_get (source, model) (st_all st).
Proof.
  intros (_ & Hg & Hn). unfold global_row_of, finish. simpl.
  apply (find_by_key (fun g => (g_source g, g_name g))); auto.
  - intros g. rewrite andb_true_iff, !String.eqb_eq. split; [intros [-> ->]; reflexivity|].
    intros [= -> ->]. auto.
  - apply sorted_desc_perm.
Qed.

Lemma finish_totals st ds :
  rows st = fold_left apply_delta ds ([], []) ->
  total_tokens (finish st) = zsum (map (fun d => tokens (snd d)) ds) /\
  total_messages (finish st) = zsum (map (fun d => messages (snd d)) ds).
Proof.
  intros Hr. unfold finish. simpl.
  assert (Hall : st_all st = snd (fold_left apply_delta ds ([], []))) by now rewrite <- Hr.
  split.
  - rewrite (zsum_perm _ (map (fun g => tokens (g_counts g)) (od_values (st_all st))))
      by (apply Permutation_map, sorted_desc_perm).
    rewrite Hall, (global_sum_fold tokens); [reflexivity | reflexivity | reflexivity].
  - rewrite (zsum_perm _ (map (fun g => messages (g_counts g)) (od_values (st_all st))))
      by (apply Permutation_map, sorted_desc_perm).
    rewrite Hall, (global_sum_fold messages); [reflexivity | reflexivity | reflexivity].
Qed.

(** The state after the loop and the increments it has added. *)
Lemma parse_entries_json_inv pr al es u :
  parse_entries_json pr al [("entries"%string, JList es)] = Ok u ->
  exists st ds,
    u = finish st /\ deltas pr al es = Ok ds /\
    rows st = fold_left apply_delta ds ([], []).
Proof.
  unfold parse_entries_json. simpl.
  pose proof (fold_entries_deltas es
                {| st_db := {| pricing := pr; aliases := al; _resolved_cache := ∅ |};
                   st_apps := []; st_all := [] |} (cache_ok_fresh pr al)) as Hf.
  simpl in Hf.
  destruct (fold_entries _ es) as [st|]; simpl; [|discriminate].
  intros [= <-]. destruct (deltas pr al es) as [ds|]; simpl in Hf; [|discriminate].
  injection Hf as Hf. now exists st, ds.
Qed.

Lemma parse_entries_json_deltas pr al es ds :
  deltas pr al es = Ok ds ->
  exists st,
    parse_entries_json pr al [("entries"%string, JList es)] = Ok (finish st) /\
    rows st = fold_left apply_delta ds ([], []).
Proof.
  intros Hd. unfold parse_entries_json. simpl.
  pose proof (fold_entries_deltas es
                {| st_db := {| pricing := pr; aliases := al; _resolved_cache := ∅ |};
                   st_apps := []; st_all := [] |} (cache_ok_fresh pr al)) as Hf.
  simpl in Hf. rewrite Hd in Hf. simpl in Hf.
  destruct (fold_entries _ es) as [st|]; simpl in *; [|discriminate].
  injection Hf as Hf. now exists st.
Qed.

End OrderIndependence.

(** C7, as amended.  Folding a rearranged list of entries gives the same
    integer totals (tokens, tokens_in, tokens_out, tokens_cache, messages)
    for every app row, every model row and the grand totals; and the
    rearranged list is aggregated whenever the original one is. *)
Theorem aggregation_integer_totals_order_independent `{PyRuntime}
  (pr : gmap string jdict) (al : gmap string string) (es es' : list jval) (u : usage_data) :
  Permutation es es' ->
  parse_entries_json pr al [("entries"%string, JList es)] = Ok u ->
  exists u',
    parse_entries_json pr al [("entries"%string, JList es')] = Ok u' /\
    total_tokens u' = total_tokens u /\
    total_messages u' = total_messages u /\
    (forall source,
        (ints ∘ app_counts) <$> app_row_of u' source
        = (ints ∘ app_counts) <$> app_row_of u source) /\
    (forall source model,
        (ints ∘ m_counts) <$> model_row_of u' source model
        = (ints ∘ m_counts) <$> model_row_of u source model) /\
    (forall source model,
        (ints ∘ g_counts) <$> global_row_of u' source model
        = (ints ∘ g_counts) <$> global_row_of u source model).
Proof.
  intros Hp Hu.
  destruct (parse_entries_json_inv pr al es u Hu) as (st & ds & -> & Hd & Hr).
  destruct (deltas_perm pr al es es' Hp ds Hd) as (ds' & Hd' & Hpd).
  destruct (parse_entries_json_deltas pr al es' ds' Hd') as (st' & Hu' & Hr').
  exists (finish st'). split; [exact Hu'|].
  destruct (finish_totals st ds Hr) as [Ht Hm].
  destruct (finish_totals st' ds' Hr') as [Ht' Hm'].
  assert (Hk : keyed_rows (rows st))
    by (rewrite Hr; apply fold_deltas_keyed, keyed_rows_empty).
  assert (Hk' : keyed_rows (rows st'))
    by (rewrite Hr'; apply fold_deltas_keyed, keyed_rows_empty).
  pose proof (fold_deltas_perm ds ds' ([], []) Hpd) as [Ha Hg].
  rewrite <- Hr, <- Hr' in Ha, Hg. simpl in Ha, Hg.
  split; [|split; [|split; [|split]]].
  - rewrite Ht, Ht'. apply zsum_perm. apply Permutation_map. now symmetry.
  - rewrite Hm, Hm'. apply zsum_perm. apply Permutation_map. now symmetry.
  - intros source. rewrite !finish_app_row.
    destruct (Ha source) as [a a' [Hc _]|]; simpl; [|reflexivity].
    unfold compose. simpl. now rewrite Hc.
  - intros source model. rewrite !finish_model_row by assumption.
    destruct (Ha source) as [a a' [_ Hmd]|]; simpl; [|reflexivity].
    destruct (Hmd model) as [m m' Hmm|]; simpl; [|reflexivity].
    unfold compose. now rewrite Hmm.
  - intros source model. rewrite !finish_global_row by assumption.
    destruct (Hg (source, model)) as [g g' Hgg|]; simpl; [|reflexivity].
    unfold compose. now rewrite Hgg.
Qed.

(** C7, the claim as stated, fails on the cost: float addition is not
    associative. *)
Lemma cost_total_depends_on_order :
  Permutation three_entries three_entries_reversed /\
  rmap (fun u => (cost ∘ g_counts) <$> global_row_of u "s1" "m1")
       (parse_entries_json unit_pricing ∅ [("entries"%string, JList three_entries)])
  = Ok (Some (S754_finite false 5404319552844596 (-53))) /\
  rmap (fun u => (cost ∘ g_counts) <$> global_row_of u "s1" "m1")
       (parse_entries_json unit_pricing ∅ [("entries"%string, JList three_entries_reversed)])
  = Ok (Some (S754_finite false 5404319552844595 (-53))).
Proof.
  split; [|split; vm_compute; reflexivity].
  exact (Permutation_rev three_entries).
Qed.

(** The amended C7 at the three entries and their reversal. *)
Lemma order_independent_witness :
  exists u',
    parse_entries_json unit_pricing ∅ [("entries"%string, JList three_entries_reversed)]
    = Ok u' /\
    total_tokens u' = 600000 /\ total_messages u' = 3.
Proof.
  destruct (parse_entries_json unit_pricing ∅ [("entries"%string, JList three_entries)])
    as [u|] eqn:Hu; [|vm_compute in Hu; discriminate].
  destruct (aggregation_integer_totals_order_independent unit_pricing ∅
              three_entries three_entries_reversed u
              (Permutation_rev three_entries) Hu) as (u' & Hu' & Ht & Hm & _).
  exists u'. split; [exact Hu'|].
  vm_compute in Hu. injection Hu as <-. split; [exact Ht | exact Hm].
Defined.

(** ** What an entry adds to its rows *)

Section Adds.
Context `{PyRuntime}.

Lemma fold_entry_adds st entry source full i o cr cw c msgs db' :
  entry_reads (st_db st) entry source full i o cr cw c msgs db' ->
  i + cw + o + cr <> 0 ->
  let d := {| tokens := i + cw + o + cr; tokens_in := i + cw; tokens_out := o;
              tokens_cache := cr; cost := c; messages := msgs |} in
  exists st',
    fold_entry st (JDict entry) = Ok st' /\
    g_counts <$> od_get (source, full) (st_all st')
    = Some (bump (counts_or_zero (g_counts <$> od_get (source, full) (st_all st))) d) /\
    a_counts <$> od_get source (st_apps st')
    = Some (bump (counts_or_zero (a_counts <$> od_get source (st_apps st))) d) /\
    (od_get source (st_apps st') ≫= fun a => m_counts <$> od_get full (models_dict a))
    = Some (bump (counts_or_zero
                    (od_get source (st_apps st) ≫= fun a =>
                       m_counts <$> od_get full (models_dict a))) d).
Proof.
  intros (Hs & (model & Hm & Hf) & Hi & Ho & Hcr & Hcw & Hc & Hmsg) Hne d.
  unfold fold_entry. rewrite Hs, Hm. simpl. rewrite Hf. simpl.
  rewrite Hi, Ho, Hcr, Hcw. simpl.
  rewrite (proj2 (Z.eqb_neq _ _) Hne), Hc. simpl. rewrite Hmsg. simpl.
  eexists. split; [reflexivity|]. simpl. rewrite !od_get_update.
  rewrite !decide_True by reflexivity. simpl.
  split; [|split].
  - destruct (od_get (source, full) (st_all st)); reflexivity.
  - destruct (od_get source (st_apps st)); reflexivity.
  - rewrite od_get_update, decide_True by reflexivity.
    destruct (od_get source (st_apps st)) as [a|]; simpl; [|reflexivity].
    destruct (od_get full (models_dict a)); reflexivity.
Qed.

End Adds.

(** ** Rows are balanced; the example of the specification *)

Section Balanced.
Context `{PyRuntime}.











End Balanced.



(* ================================================================== *)
(** * Daily contributions *)
(* ================================================================== *)

Lemma values_by_key_elem {V} (m : gmap string V) (x : V) :
  x ∈ values_by_key m -> exists k, m !! k = Some x.
Proof.
  unfold values_by_key. rewrite list_elem_of_omap. intros (k & _ & Hk). eauto.
Qed.

Section ContributionFacts.
Context `{PyRuntime}.

Lemma contribution_step_no_cache_write m e m' :
  map_Forall (fun _ d => no_cache_write d) m ->
  contribution_step m e = Ok m' ->
  map_Forall (fun _ d => no_cache_write d) m'.
Proof.
  intros Hm. destruct e as [| | | | | |e]; try discriminate.
  unfold contribution_step.
  bind_cases; [|discriminate].
  destruct (_ <=? 0); [intros [= <-]; exact Hm|].
  do 8 (bind_cases; [|discriminate]).
  intros [= <-]. apply map_Forall_insert_2; [|exact Hm].
  match goal with |- context [m !! ?k] => destruct (m !! k) as [d|] eqn:Hd end.
  - destruct (Hm _ _ Hd) as [Htb Hs]. split; simpl.
    + rewrite Htb. reflexivity.
    + apply Forall_app. split; [exact Hs|]. constructor; [reflexivity | constructor].
  - split; simpl; [reflexivity|]. constructor; [reflexivity | constructor].
Qed.

Lemma contribution_loop_no_cache_write es : forall m m',
  map_Forall (fun _ d => no_cache_write d) m ->
  contribution_loop m es = Ok m' ->
  map_Forall (fun _ d => no_cache_write d) m'.
Proof.
  induction es as [|e es IH]; intros m m' Hm; simpl.
  - intros [= <-]. exact Hm.
  - destruct (contribution_step m e) as [m1|] eqn:He; simpl; [|discriminate].
    apply IH. exact (contribution_step_no_cache_write m e m1 Hm He).
Qed.

Lemma contributions_no_cache_write entries days :
  _contributions_from_entries entries = Ok days -> Forall no_cache_write days.
Proof.
  unfold _contributions_from_entries.
  destruct (contribution_loop ∅ entries) as [m|] eqn:Hl; simpl; [|discriminate].
  intros [= <-]. apply Forall_forall. intros d Hd.
  apply values_by_key_elem in Hd as [k Hk].
  exact (contribution_loop_no_cache_write entries ∅ m (map_Forall_empty _) Hl k d Hk).
Qed.

Lemma session_contributions_no_cache_write db files since_date until_date u :
  openclaw.get_session_usage db files since_date until_date = Ok u ->
  Forall no_cache_write (openclaw.contributions u).
Proof.
  unfold openclaw.get_session_usage.
  destruct (openclaw.fold_files _ _ _ files) as [st|]; simpl; [|discriminate].
  intros [= <-]. simpl. apply Forall_forall. intros d Hd.
  apply list_elem_of_omap in Hd as (k & _ & Hk).
  destruct (openclaw.ls_daily st !! k) as [day|]; simpl in Hk; [|discriminate].
  injection Hk as <-. split; simpl; [reflexivity|].
  apply Forall_forall. intros s Hs.
  apply list_elem_of_fmap in Hs as ([model src] & -> & _). reflexivity.
Qed.

(** ** Entries without a positive timestamp *)




End ContributionFacts.

(** C9. No day produced by the contribution builder of the coding tools
    or by the session aggregator reports cache-write tokens: the
    [cacheWrite] of its [tokenBreakdown] and of each of its sources is 0. *)
Theorem cache_write_bucket_is_zero `{PyRuntime} :
  (forall entries days,
      _contributions_from_entries entries = Ok days -> Forall no_cache_write days) /\
  (forall db files since_date until_date u,
      openclaw.get_session_usage db files since_date until_date = Ok u ->
      Forall no_cache_write (openclaw.contributions u)).
Proof.
  split.
  - apply contributions_no_cache_write.
  - apply session_contributions_no_cache_write.
Qed.

(** C9 on the entry of the specification, whose 27000 cache-write tokens
    are reported as input. *)
Lemma cache_write_bucket_is_zero_witness :
  exists day,
    _contributions_from_entries [JDict cache_write_entry] = Ok [day] /\
    no_cache_write day.
Proof.
  destruct (_contributions_from_entries [JDict cache_write_entry]) as [days|] eqn:Hd;
    [|vm_compute in Hd; discriminate].
  pose proof (proj1 (@cache_write_bucket_is_zero utc_runtime) _ _ Hd) as Hf.
  vm_compute in Hd. injection Hd as <-.
  eexists. split; [reflexivity|]. now apply Forall_cons in Hf as [Hf _].
Defined.




(* ================================================================== *)
(** * Time ranges and unpriced models *)
(* ================================================================== *)


Section SessionRange.
Context `{PyRuntime}.



(** For a model without a price, the session aggregator takes the cost of
    the payload. *)
Lemma add_usage_unpriced st msg_date message usage model c :
  openclaw.message_model message = Ok model ->
  fst (_resolve_pricing (openclaw.ls_db st) model) = None ->
  openclaw._usage_cost_from_payload usage = Ok c ->
  let old := match od_get model (openclaw.ls_model_stats st) with
             | Some s => s
             | None => openclaw.zero_model_stats
             end in
  exists st',
    openclaw.add_usage st msg_date message usage = Ok st' /\
    od_get model (openclaw.ls_model_stats st')
    = Some {| openclaw.ms_tokens_in :=
                openclaw.ms_tokens_in old
                + (openclaw.usage_int usage "input" "inputTokens"
                   + openclaw.usage_int usage "cacheWrite" "cacheWriteTokens");
              openclaw.ms_tokens_out :=
                openclaw.ms_tokens_out old + openclaw.usage_int usage "output" "outputTokens";
              openclaw.ms_tokens_cache :=
                openclaw.ms_tokens_cache old
                + openclaw.usage_int usage "cacheRead" "cacheReadTokens";
              openclaw.ms_cost := fadd (openclaw.ms_cost old) c;
              openclaw.ms_messages := openclaw.ms_messages old + 1 |}.
Proof.
  intros Hm Hr Hc old. unfold openclaw.add_usage. rewrite Hm. cbn [rbind].
  match goal with |- context [get_cost ?db ?m ?i ?o ?cr ?cw] =>
    pose proof (get_cost_unresolved db m i o cr cw Hr) as Hg;
    destruct (get_cost db m i o cr cw) as [cdb db'] end.
  simpl in Hg. subst cdb. cbn [rbind].
  change (flt fzero fzero) with false. cbv iota. rewrite Hc. cbn [rbind].
  eexists. split; [reflexivity|]. simpl.
  rewrite od_get_update, decide_True by reflexivity. reflexivity.
Qed.

End SessionRange.




(** C4, as amended.  For a model that resolves to no price record, and
    for every model when the price table is empty, [get_cost] returns 0.0.
    An entry of such a model is added to its rows with its token counts:
    with cost 0.0 by [parse_entries_json], and by the session aggregator
    with the cost that the usage payload reports. *)
Theorem unresolved_model_cost `{PyRuntime} :
  (forall db model i o cr cw,
      fst (_resolve_pricing db model) = None ->
      fst (get_cost db model i o cr cw) = Ok fzero) /\
  (forall db model i o cr cw,
      pricing db = ∅ -> cache_ok db ->
      fst (get_cost db model i o cr cw) = Ok fzero) /\
  (forall st entry source full i o cr cw c msgs db',
      entry_reads (st_db st) entry source full i o cr cw c msgs db' ->
      fst (_resolve_pricing (st_db st) full) = None ->
      i + cw + o + cr <> 0 ->
      exists st',
        fold_entry st (JDict entry) = Ok st' /\
        g_counts <$> od_get (source, full) (st_all st')
        = Some (bump (counts_or_zero (g_counts <$> od_get (source, full) (st_all st)))
                     {| tokens := i + cw + o + cr; tokens_in := i + cw; tokens_out := o;
                        tokens_cache := cr; cost := fzero; messages := msgs |})) /\
  (forall st msg_date message usage model c,
      openclaw.message_model message = Ok model ->
      fst (_resolve_pricing (openclaw.ls_db st) model) = None ->
      openclaw._usage_cost_from_payload usage = Ok c ->
      let old := match od_get model (openclaw.ls_model_stats st) with
                 | Some s => s
                 | None => openclaw.zero_model_stats
                 end in
      exists st',
        openclaw.add_usage st msg_date message usage = Ok st' /\
        od_get model (openclaw.ls_model_stats st')
        = Some {| openclaw.ms_tokens_in :=
                    openclaw.ms_tokens_in old
                    + (openclaw.usage_int usage "input" "inputTokens"
                       + openclaw.usage_int usage "cacheWrite" "cacheWriteTokens");
                  openclaw.ms_tokens_out :=
                    openclaw.ms_tokens_out old
                    + openclaw.usage_int usage "output" "outputTokens";
                  openclaw.ms_tokens_cache :=
                    openclaw.ms_tokens_cache old
                    + openclaw.usage_int usage "cacheRead" "cacheReadTokens";
                  openclaw.ms_cost := fadd (openclaw.ms_cost old) c;
                  openclaw.ms_messages := openclaw.ms_messages old + 1 |}).
Proof.
  refine (conj _ (conj _ (conj _ _))).
  - apply get_cost_unresolved.
  - intros db model i o cr cw Hp Hok.
    destruct (get_cost_cached db model i o cr cw Hok) as [-> _].
    unfold cost_of. now rewrite Hp, resolve_empty.
  - intros st entry source full i o cr cw c msgs db' Hr Hu Hne.
    assert (Hc : c = fzero).
    { destruct Hr as (_ & _ & _ & _ & _ & _ & Hg & _).
      pose proof (get_cost_unresolved (st_db st) full i o cr cw Hu) as Hz.
      rewrite Hg in Hz. simpl in Hz. congruence. }
    subst c.
    destruct (fold_entry_adds st entry source full i o cr cw fzero msgs db' Hr Hne)
      as (st' & Hf & Hg & _).
    exists st'. split; [exact Hf | exact Hg].
  - intros st msg_date message usage model c. apply add_usage_unpriced.
Qed.

(** The amended C4 with an empty price table. *)
Lemma unresolved_model_cost_witness :
  fst (get_cost empty_db "acme/m9" 10 20 0 0) = Ok fzero.
Proof.
  apply (proj1 (@unresolved_model_cost utc_runtime)). vm_compute. reflexivity.
Defined.

(** C4, the claim as stated, fails in the session aggregator: the model
    has no price, and its row carries the cost 0.5 of the payload. *)
Lemma unpriced_session_cost_is_not_zero :
  resolve ∅ ∅ "acme/m9" = None /\
  rmap (fun r => cost <$> od_get "acme/m9"%string (openclaw.models r))
       (openclaw.get_session_usage empty_db [one_message_file 1700000000] None None)
  = Ok (Some f0_5) /\
  f0_5 <> fzero.
Proof. split; [|split]; [vm_compute; reflexivity .. | discriminate]. Qed.

(* ================================================================== *)
(** * The calendar merge *)
(* ================================================================== *)

Section MergeFacts.

Implicit Types (l : list DayContribution) (m : gmap string DayContribution) (d : string).

Lemma day_of_None d l : d ∉ map date l -> day_of d l = None.
Proof.
  unfold day_of. induction l as [|x l IH]; simpl; [reflexivity|].
  intros Hd. apply not_elem_of_cons in Hd as [Hne Hd].
  destruct (String.eqb_spec (date x) d); [congruence | auto].
Qed.

Lemma day_of_date d l x : day_of d l = Some x -> date x = d /\ x ∈ l.
Proof.
  unfold day_of. intros Hf. apply find_some in Hf as [Hin He].
  apply String.eqb_eq in He. split; [exact He | now apply list_elem_of_In].
Qed.

Lemma day_of_elem d l : d ∈ map date l <-> is_Some (day_of d l).
Proof.
  split.
  - intros Hd. destruct (day_of d l) as [x|] eqn:Hf; [eauto|].
    apply list_elem_of_fmap in Hd as (x & -> & Hx).
    apply list_elem_of_In in Hx. unfold day_of in Hf.
    pose proof (find_none _ _ Hf x Hx) as Hn. simpl in Hn.
    now rewrite String.eqb_refl in Hn.
  - intros [x Hx]. apply day_of_date in Hx as [<- Hx].
    apply list_elem_of_fmap. eauto.
Qed.

(** A series with one record per date and the dictionary built from it. *)
Lemma day_map_from l : forall m d,
  NoDup (map date l) ->
  fold_left (fun m c => <[ date c := c ]> m) l m !! d
  = match day_of d l with Some x => Some x | None => m !! d end.
Proof.
  induction l as [|x l IH]; intros m d Hn; simpl; [reflexivity|].
  apply NoDup_cons in Hn as [Hx Hn]. rewrite IH by exact Hn.
  unfold day_of at 2. simpl.
  destruct (String.eqb_spec (date x) d) as [<-|Hne].
  - rewrite day_of_None by exact Hx. apply lookup_insert_eq.
  - fold (day_of d l). destruct (day_of d l); [reflexivity|].
    now apply lookup_insert_ne.
Qed.

Lemma day_map_lookup l d : NoDup (map date l) -> day_map l !! d = day_of d l.
Proof.
  intros Hn. unfold day_map. rewrite day_map_from by exact Hn.
  destruct (day_of d l); [reflexivity | apply lookup_empty].
Qed.

Lemma merge_at_date om cm d x :
  (forall k v, om !! k = Some v -> date v = k) ->
  (forall k v, cm !! k = Some v -> date v = k) ->
  merge_at om cm d = Some x -> date x = d.
Proof.
  intros Ho Hc. unfold merge_at.
  destruct (om !! d) as [o|] eqn:Eo, (cm !! d) as [c|] eqn:Ec; intros [= <-]; eauto.
Qed.

(** The search of a date among the records made for a list of distinct
    dates. *)
Lemma day_of_omap (f : string -> option DayContribution) keys d :
  NoDup keys -> (forall k v, f k = Some v -> date v = k) ->
  day_of d (omap f keys) = if decide (d ∈ keys) then f d else None.
Proof.
  intros Hn Hf. induction keys as [|k keys IH].
  - case_decide as Hin; [now apply elem_of_nil in Hin | reflexivity].
  - apply NoDup_cons in Hn as [Hk Hn]. specialize (IH Hn).
    assert (Hcons : (if decide (d ∈ k :: keys) then f d else None)
                    = if decide (d = k) then f k
                      else if decide (d ∈ keys) then f d else None).
    { destruct (decide (d = k)) as [->|Hne].
      - now rewrite decide_True by apply list_elem_of_here.
      - destruct (decide (d ∈ keys)) as [Hin|Hout].
        + now rewrite decide_True by (now apply list_elem_of_further).
        + rewrite decide_False; [reflexivity|]. rewrite elem_of_cons. tauto. }
    rewrite Hcons. clear Hcons. cbn [omap list_omap].
    destruct (f k) as [v|] eqn:Hv.
    + unfold day_of. cbn [find]. fold (day_of d (omap f keys)).
      rewrite (Hf k v Hv), IH.
      destruct (String.eqb_spec k d) as [->|Hne].
      * now rewrite (decide_True (P := d = d)) by reflexivity.
      * now rewrite (decide_False (P := d = k)) by congruence.
    + rewrite IH. destruct (decide (d = k)) as [->|Hne]; [|reflexivity].
      now rewrite (decide_False (P := k ∈ keys)) by exact Hk.
Qed.

Lemma sorted_strings_elem (X : gset string) d : d ∈ sorted_strings (elements X) <-> d ∈ X.
Proof. unfold sorted_strings. rewrite merge_sort_Permutation. apply elem_of_elements. Qed.

Lemma sorted_strings_NoDup (X : gset string) : NoDup (sorted_strings (elements X)).
Proof. unfold sorted_strings. rewrite merge_sort_Permutation. apply NoDup_elements. Qed.

Lemma merge_contributions_day ocl coding d :
  NoDup (map date ocl) -> NoDup (map date coding) ->
  day_of d (merge_contributions ocl coding)
  = match day_of d ocl, day_of d coding with
    | Some o, Some c => Some (merged_day d o c)
    | Some o, None => Some o
    | None, Some c => Some c
    | None, None => None
    end.
Proof.
  intros Ho Hc. unfold merge_contributions.
  rewrite day_of_omap.
  - unfold merge_at. rewrite !day_map_lookup by assumption.
    destruct (decide _) as [Hin|Hout]; [reflexivity|].
    rewrite sorted_strings_elem, elem_of_union, !elem_of_dom in Hout.
    rewrite !day_map_lookup in Hout by assumption.
    destruct (day_of d ocl), (day_of d coding); try reflexivity;
      exfalso; apply Hout; eauto.
  - apply sorted_strings_NoDup.
  - intros k v. apply merge_at_date; intros k' v'; rewrite day_map_lookup by assumption;
      intros Hv; now apply day_of_date in Hv.
Qed.

End MergeFacts.

(** C8. Merging two series with one record per date gives a series over
    the union of their dates.  For a date of both, the numeric fields of
    [totals] and [tokenBreakdown] are summed, the lists of sources are
    concatenated and the intensity is the larger of the two; for a date of
    one series only, the record of that date is kept as it is. *)
Theorem merge_contributions_spec (ocl coding : list DayContribution) (d : string) :
  NoDup (map date ocl) -> NoDup (map date coding) ->
  (d ∈ map date (merge_contributions ocl coding)
   <-> d ∈ map date ocl \/ d ∈ map date coding) /\
  day_of d (merge_contributions ocl coding)
  = match day_of d ocl, day_of d coding with
    | Some o, Some c =>
        Some {| date := d;
                totals :=
                  {| day_tokens := day_tokens (totals o) + day_tokens (totals c);
                     day_cost := fadd (day_cost (totals o)) (day_cost (totals c));
                     day_messages := day_messages (totals o) + day_messages (totals c) |};
                intensity := Z.max (intensity o) (intensity c);
                tokenBreakdown :=
                  {| input := input (tokenBreakdown o) + input (tokenBreakdown c);
                     output := output (tokenBreakdown o) + output (tokenBreakdown c);
                     cacheRead := cacheRead (tokenBreakdown o) + cacheRead (tokenBreakdown c);
                     cacheWrite := cacheWrite (tokenBreakdown o) + cacheWrite (tokenBreakdown c);
                     reasoning := reasoning (tokenBreakdown o) + reasoning (tokenBreakdown c) |};
                sources := sources o ++ sources c |}
    | Some o, None => Some o
    | None, Some c => Some c
    | None, None => None
    end.
Proof.
  intros Ho Hc. pose proof (merge_contributions_day ocl coding d Ho Hc) as Hd.
  split; [|exact Hd].
  rewrite !day_of_elem, Hd, !is_Some_alt.
  destruct (day_of d ocl), (day_of d coding); tauto.
Qed.

(** C8 on two series that share the second of January: the tokens of that
    day are added, its intensity is the larger one, and the first of
    January is kept. *)
Lemma merge_contributions_spec_witness :
  (fun m => (day_tokens (totals m), intensity m))
    <$> day_of "2026-01-02" (merge_contributions session_days coding_days)
  = Some (320, 3) /\
  day_of "2026-01-01" (merge_contributions session_days coding_days)
  = Some (example_day "2026-01-01" 10 2).
Proof.
  assert (H1 : NoDup (map date session_days))
    by (apply (bool_decide_unpack _); vm_compute; exact I).
  assert (H2 : NoDup (map date coding_days))
    by (apply (bool_decide_unpack _); vm_compute; exact I).
  split.
  - rewrite (proj2 (merge_contributions_spec session_days coding_days "2026-01-02" H1 H2)).
    reflexivity.
  - rewrite (proj2 (merge_contributions_spec session_days coding_days "2026-01-01" H1 H2)).
    reflexivity.
Defined.

(* ================================================================== *)
(** * Periods *)
(* ================================================================== *)






